(** * MonieShop analyser: a shallow embedding of [main.py] and its properties

    The Python program reads transaction lines, builds a [Sale] per line
    and folds it into five dictionaries ([update_metrics]); [print_metrics]
    derives the reported maxima from them.

    Layout of the development:
    - [Py]: the fragments of Python the program relies on (exceptions,
      string slicing and splitting, insertion-ordered dictionaries, [max],
      [sorted], true division of integers);
    - [Builtins]: the library functions [int], [float] and
      [datetime.fromisoformat], kept abstract for the general theorems and
      instantiated by [Concrete] for the closed examples;
    - the classes [Sale] and [MonieshopAnalyser], method by method;
    - the properties. *)

From Stdlib Require Import ZArith List String Ascii Bool Lia.
From Stdlib Require Import Permutation Sorted.
From Stdlib Require Import Floats.
Import ListNotations.

Local Open Scope string_scope.
Local Open Scope Z_scope.

Set Implicit Arguments.

(* ================================================================== *)
(** * The Python fragment *)

Module Py.

(** Exceptions the program can raise. *)
Inductive exn : Set :=
| IndexError | ValueError | KeyError | ZeroDivisionError | OverflowError.

(** The result of evaluating an expression: a value or a raised exception. *)
Inductive outcome (A : Type) : Type :=
| OK (a : A)
| Raise (e : exn).
Arguments OK {A} a.
Arguments Raise {A} e.

Definition bind {A B} (m : outcome A) (k : A -> outcome B) : outcome B :=
  match m with
  | OK a => k a
  | Raise e => Raise e
  end.

Definition of_option {A} (e : exn) (o : option A) : outcome A :=
  match o with
  | Some a => OK a
  | None => Raise e
  end.

Definition is_ok {A} (m : outcome A) : bool :=
  match m with OK _ => true | Raise _ => false end.

(** [for x in l: acc = f(acc, x)], stopping at the first exception. *)
Fixpoint foldM {A B} (f : B -> A -> outcome B) (l : list A) (acc : B) : outcome B :=
  match l with
  | [] => OK acc
  | x :: r => bind (f acc x) (foldM f r)
  end.

(** ** Strings *)

(** [s.split(sep)] for a one-character separator: never empty. *)
Fixpoint split (sep : ascii) (s : string) : list string :=
  match s with
  | EmptyString => [EmptyString]
  | String c s' =>
      if Ascii.eqb c sep then EmptyString :: split sep s'
      else match split sep s' with
           | [] => [String c EmptyString]
           | w :: ws => String c w :: ws
           end
  end.

(** [str.isspace] on ASCII: tab, newline, vertical tab, form feed, carriage
    return, the separators 28-31 and the blank. *)
Definition isspace (c : ascii) : bool :=
  let n := N_of_ascii c in
  ((9 <=? n) && (n <=? 13) || (28 <=? n) && (n <=? 32))%N.

Fixpoint lstrip (s : string) : string :=
  match s with
  | String c s' => if isspace c then lstrip s' else s
  | EmptyString => EmptyString
  end.

Fixpoint rstrip (s : string) : string :=
  match s with
  | EmptyString => EmptyString
  | String c s' =>
      match rstrip s' with
      | EmptyString => if isspace c then EmptyString else String c EmptyString
      | r => String c r
      end
  end.

(** [s.strip()] *)
Definition strip (s : string) : string := rstrip (lstrip s).

Fixpoint drop_last (s : string) : string :=
  match s with
  | EmptyString => EmptyString
  | String c EmptyString => EmptyString
  | String c s' => String c (drop_last s')
  end.

(** [s[1:-1]]: the string without its first and last characters, whatever
    they are; empty when [s] has fewer than three characters. *)
Definition slice_1_m1 (s : string) : string :=
  match s with
  | EmptyString => EmptyString
  | String _ s' => drop_last s'
  end.

(** [l[i]] on a list, for a non-negative literal index. *)
Definition index {A} (l : list A) (i : nat) : outcome A :=
  of_option IndexError (nth_error l i).

(** ** Dictionaries

    A [dict] keeps its keys in insertion order, and [max] over [items()]
    breaks ties by that order, so a dictionary is an association list with
    one entry per key. *)

Class EqDec (K : Type) := {
  eqb : K -> K -> bool;
  eqb_spec : forall x y, reflect (x = y) (eqb x y)
}.

#[export] Instance string_EqDec : EqDec string :=
  {| eqb := String.eqb; eqb_spec := String.eqb_spec |}.

#[export] Instance Z_EqDec : EqDec Z :=
  {| eqb := Z.eqb; eqb_spec := Z.eqb_spec |}.

Definition dict (K V : Type) := list (K * V).

Section Dict.
Context {K V : Type} `{EqDec K}.

(** [dict()] *)
Definition dict_new : dict K V := [].

Fixpoint dict_lookup (d : dict K V) (k : K) : option V :=
  match d with
  | [] => None
  | (k', v) :: r => if eqb k' k then Some v else dict_lookup r k
  end.

(** [k in d] *)
Definition dict_contains (d : dict K V) (k : K) : bool :=
  match dict_lookup d k with Some _ => true | None => false end.

(** [d.get(k, default)] *)
Definition dict_get (d : dict K V) (k : K) (default : V) : V :=
  match dict_lookup d k with Some v => v | None => default end.

(** [d[k]] *)
Definition dict_getitem (d : dict K V) (k : K) : outcome V :=
  of_option KeyError (dict_lookup d k).

(** [d[k] = v]: an existing key keeps its position, a new one goes last. *)
Fixpoint dict_setitem (d : dict K V) (k : K) (v : V) : dict K V :=
  match d with
  | [] => [(k, v)]
  | (k', v') :: r =>
      if eqb k' k then (k', v) :: r else (k', v') :: dict_setitem r k v
  end.

(** [d.items()] *)
Definition items (d : dict K V) : list (K * V) := d.

Definition keys (d : dict K V) : list K := map fst d.
End Dict.

(** ** [max], [sorted], [sum] and [/] *)

Section MaxSorted.
Context {A B : Type}.
Variable gt : B -> B -> bool.        (* [x > y] on keys *)
Variable lt : B -> B -> bool.        (* [x < y] on keys *)
Variable key : A -> B.

Fixpoint max_from (best : A) (l : list A) : A :=
  match l with
  | [] => best
  | x :: r => max_from (if gt (key x) (key best) then x else best) r
  end.

(** [max(l, key=key)]: the first item no later item is greater than;
    [ValueError] on an empty sequence. *)
Definition max_by (l : list A) : outcome A :=
  match l with
  | [] => Raise ValueError
  | x :: r => OK (max_from x r)
  end.

Fixpoint insort (x : A) (l : list A) : list A :=
  match l with
  | [] => [x]
  | y :: r => if lt (key x) (key y) then x :: y :: r else y :: insort x r
  end.

(** [sorted(l, key=key)]. Python's sort is stable, so its result is that
    of any stable sort: here, insertion from left to right, each item
    placed after the items that are not greater. *)
Definition sorted_by (l : list A) : list A :=
  fold_left (fun acc x => insort x acc) l [].
End MaxSorted.

(** [sum(l)] on integers *)
Definition sum (l : list Z) : Z := fold_left Z.add l 0.

(** [len(l)] *)
Definition len {A} (l : list A) : Z := Z.of_nat (List.length l).

Definition Z2SF (z : Z) : spec_float :=
  match z with
  | Z0 => S754_zero false
  | Zpos p => S754_finite false p 0
  | Zneg p => S754_finite true p 0
  end.

(** [a / b] on integers: the exact quotient rounded to the nearest binary64
    value; [ZeroDivisionError] for a zero divisor and [OverflowError] when
    the quotient is out of the range of a float. *)
Definition int_truediv (a b : Z) : outcome float :=
  if b =? 0 then Raise ZeroDivisionError
  else match SFdiv prec emax (Z2SF a) (Z2SF b) with
       | S754_infinity _ => Raise OverflowError
       | q => OK (SF2Prim q)
       end.

(** [x > y] on floats *)
Definition float_gt (x y : float) : bool := PrimFloat.ltb y x.

End Py.

Import Py.

(** ** Checks of the fragment on sample values *)

Example split_samples :
  split "," "a,b,,c" = ["a"; "b"; ""; "c"] /\ split "," "" = [""]
  /\ split ":" "726107:5" = ["726107"; "5"] /\ split ":" "726107" = ["726107"].
Proof. repeat split. Qed.

Example strip_slice_samples :
  strip "  4,x  " = "4,x"
  /\ slice_1_m1 "[726107:5]" = "726107:5"
  /\ slice_1_m1 "[726107:15" = "726107:1"
  /\ slice_1_m1 "[]" = "" /\ slice_1_m1 "[" = "" /\ slice_1_m1 "" = "".
Proof. repeat split. Qed.

Example dict_samples :
  dict_setitem (dict_setitem (dict_setitem dict_new "b" 1) "a" 2) "b" 3
    = [("b", 3); ("a", 2)]
  /\ max_by Z.gtb snd [("a", 2); ("b", 5); ("c", 5)] = OK ("b", 5)
  /\ max_by Z.gtb snd (@nil (string * Z)) = Raise ValueError
  /\ sorted_by String.ltb fst [("2025-01", 1); ("2024-12", 2); ("2024-02", 3)]
     = [("2024-02", 3); ("2024-12", 2); ("2025-01", 1)].
Proof. repeat split. Qed.

Example int_truediv_samples :
  int_truediv 10 1 = OK 10%float /\ int_truediv 7 2 = OK 3.5%float
  /\ int_truediv 1 3 = OK (1 / 3)%float
  /\ int_truediv 5 0 = Raise ZeroDivisionError
  /\ int_truediv (10 ^ 400) 1 = Raise OverflowError
  /\ int_truediv (10 ^ 400) (10 ^ 399) = OK 10%float.
Proof. repeat split. Qed.

Declare Scope py_scope.
Notation "x <- m ;; k" := (Py.bind m (fun x => k))
  (at level 61, m at next level, right associativity) : py_scope.
Local Open Scope py_scope.

(* ================================================================== *)
(** * Dates and the library functions *)

(** [datetime.datetime]: the fields the program reads. *)
Record datetime : Set := {
  year : Z; month : Z; day : Z;
  hour : Z; minute : Z; second : Z; microsecond : Z
}.

(** [datetime.date] *)
Record date : Set := { d_year : Z; d_month : Z; d_day : Z }.

Definition date_eqb (a b : date) : bool :=
  (d_year a =? d_year b) && (d_month a =? d_month b) && (d_day a =? d_day b).

Lemma date_eqb_spec (a b : date) : reflect (a = b) (date_eqb a b).
Proof.
  destruct a as [y1 m1 d1], b as [y2 m2 d2]; unfold date_eqb; simpl.
  destruct (Z.eqb_spec y1 y2), (Z.eqb_spec m1 m2), (Z.eqb_spec d1 d2);
    simpl; constructor; congruence.
Qed.

#[export] Instance date_EqDec : EqDec date :=
  {| eqb := date_eqb; eqb_spec := date_eqb_spec |}.

Definition is_leap (y : Z) : bool :=
  (y mod 4 =? 0) && (negb (y mod 100 =? 0) || (y mod 400 =? 0)).

Definition days_in_month (y m : Z) : Z :=
  if m =? 2 then (if is_leap y then 29 else 28)
  else if (m =? 4) || (m =? 6) || (m =? 9) || (m =? 11) then 30
  else 31.

Definition between (lo x hi : Z) : bool := (lo <=? x) && (x <=? hi).

(** The ranges every [datetime] object satisfies. *)
Definition valid_datetime (dt : datetime) : bool :=
  between 1 (year dt) 9999 && between 1 (month dt) 12 &&
  between 1 (day dt) (days_in_month (year dt) (month dt)) &&
  between 0 (hour dt) 23 && between 0 (minute dt) 59 &&
  between 0 (second dt) 59 && between 0 (microsecond dt) 999999.

(** [dt.date()] *)
Definition date_of (dt : datetime) : date :=
  {| d_year := year dt; d_month := month dt; d_day := day dt |}.

Definition digit (n : Z) : ascii := ascii_of_N (48 + Z.to_N (n mod 10)).

Definition zfill4 (n : Z) : string :=
  String (digit (n / 1000)) (String (digit (n / 100))
    (String (digit (n / 10)) (String (digit n) EmptyString))).

Definition zfill2 (n : Z) : string :=
  String (digit (n / 10)) (String (digit n) EmptyString).


(** [%Y] as the C library of Linux prints it, which [strftime] hands the
    format to: the year in decimal without padding, so 999 gives ["999"]
    and 2025 gives ["2025"]. *)
Definition year_text (y : Z) : string :=
  if y <? 10 then String (digit y) EmptyString
  else if y <? 100 then zfill2 y
  else if y <? 1000 then
    String (digit (y / 100)) (String (digit (y / 10))
      (String (digit y) EmptyString))
  else zfill4 y.

(** [dt.strftime('%Y-%m')]: the year without padding, a dash, the month on
    two digits. *)
Definition strftime_Ym (dt : datetime) : string :=
  (year_text (year dt) ++ "-" ++ zfill2 (month dt))%string.

Example strftime_Ym_samples :
  let at_month y m :=
    {| year := y; month := m; day := 1;
       hour := 0; minute := 0; second := 0; microsecond := 0 |} in
  strftime_Ym (at_month 2025 1) = "2025-01"
  /\ strftime_Ym (at_month 1000 1) = "1000-01"
  /\ strftime_Ym (at_month 999 12) = "999-12"
  /\ strftime_Ym (at_month 24 7) = "24-07"
  /\ strftime_Ym (at_month 5 3) = "5-03".
Proof. repeat split. Qed.

(** The three library functions the program calls on its input text.
    [None] stands for the [ValueError] they raise. The theorems below hold
    for every implementation that returns [datetime] objects within their
    ranges. *)
Class Builtins := {
  py_int : string -> option Z;               (* int(s) *)
  py_float : string -> option float;         (* float(s) *)
  fromisoformat : string -> option datetime; (* datetime.fromisoformat(s) *)
  fromisoformat_valid :
    forall s dt, fromisoformat s = Some dt -> valid_datetime dt = true
}.

(* ================================================================== *)
(** * class Sale *)

(** One entry of [Sale.products]: [{'id': ..., 'quantity': ...}], both
    kept as the text found in the record. *)
Record product : Set := { product_id : string; quantity : string }.

Record Sale : Set := {
  staff : string;
  timestamp : datetime;
  products : list product;
  amount : string
}.

Section SaleMethods.
Context `{Builtins}.

(** [product_id, quantity = product.split(':')]: unpacking raises
    [ValueError] unless there are exactly two tokens. *)
Definition unpack_product (tok : string) : outcome product :=
  match split ":" tok with
  | [i; q] => OK {| product_id := i; quantity := q |}
  | _ => Raise ValueError
  end.

Definition format_products (products : string) : outcome (list product) :=
  let products := split "|" (slice_1_m1 products) in
  foldM (fun formatted_products product =>
           p <- unpack_product product ;;
           OK (formatted_products ++ [p])%list)
        products [].

Definition format_timestamp (timestamp : string) : outcome datetime :=
  of_option ValueError (fromisoformat timestamp).

(** [Sale.__init__] *)
Definition Sale_init (record : list string) : outcome Sale :=
  r0 <- index record 0 ;;
  r1 <- index record 1 ;;
  ts <- format_timestamp r1 ;;
  r2 <- index record 2 ;;
  ps <- format_products r2 ;;
  r3 <- index record 3 ;;
  OK {| staff := r0; timestamp := ts; products := ps; amount := r3 |}.

(** [Sale(line.strip().split(','))], as [get_transactions] builds it. *)
Definition parse (line : string) : outcome Sale :=
  Sale_init (split "," (strip line)).
End SaleMethods.

(* ================================================================== *)
(** * class MonieshopAnalyser *)

Record MonieshopAnalyser : Type := {
  transactions : list Sale;
  daily_volume : dict date Z;
  daily_value : dict date float;
  product_volume : dict string Z;
  monthly_staff_sales : dict string (dict string Z);
  hourly_volumes : dict Z (list Z)
}.

(** [MonieshopAnalyser.__init__] *)
Definition MonieshopAnalyser_init : MonieshopAnalyser :=
  {| transactions := [];
     daily_volume := dict_new;
     daily_value := dict_new;
     product_volume := dict_new;
     monthly_staff_sales := dict_new;
     hourly_volumes := dict_new |}.

(** A method: it runs on [self], may assign to its attributes and returns
    a value or raises; what it assigned before raising stays assigned. *)
Definition method (A : Type) : Type :=
  MonieshopAnalyser -> outcome A * MonieshopAnalyser.

Module Meth.
Definition ret {A} (a : A) : method A := fun self => (OK a, self).

Definition bind {A B} (m : method A) (k : A -> method B) : method B :=
  fun self =>
    match m self with
    | (OK a, self') => k a self'
    | (Raise e, self') => (Raise e, self')
    end.

(** Evaluate an expression that does not assign to [self]. *)
Definition eval {A} (e : MonieshopAnalyser -> outcome A) : method A :=
  fun self => (e self, self).

(** Assign to attributes of [self]. *)
Definition assign (f : MonieshopAnalyser -> MonieshopAnalyser) : method unit :=
  fun self => (OK tt, f self).

(** [for x in l: body(x)] *)
Fixpoint for_each {A} (l : list A) (body : A -> method unit) : method unit :=
  match l with
  | [] => ret tt
  | x :: r => bind (body x) (fun _ => for_each r body)
  end.
End Meth.

Declare Scope meth_scope.
Delimit Scope meth_scope with meth.
Delimit Scope py_scope with py.
Notation "x <- m ;; k" := (Meth.bind m (fun x => k))
  (at level 61, m at next level, right associativity) : meth_scope.
Notation "m ;; k" := (Meth.bind m (fun _ => k))
  (at level 61, right associativity) : meth_scope.

Definition set_transactions v (self : MonieshopAnalyser) :=
  {| transactions := v;
     daily_volume := daily_volume self;
     daily_value := daily_value self;
     product_volume := product_volume self;
     monthly_staff_sales := monthly_staff_sales self;
     hourly_volumes := hourly_volumes self |}.

Definition set_daily_volume v (self : MonieshopAnalyser) :=
  {| transactions := transactions self;
     daily_volume := v;
     daily_value := daily_value self;
     product_volume := product_volume self;
     monthly_staff_sales := monthly_staff_sales self;
     hourly_volumes := hourly_volumes self |}.

Definition set_daily_value v (self : MonieshopAnalyser) :=
  {| transactions := transactions self;
     daily_volume := daily_volume self;
     daily_value := v;
     product_volume := product_volume self;
     monthly_staff_sales := monthly_staff_sales self;
     hourly_volumes := hourly_volumes self |}.

Definition set_product_volume v (self : MonieshopAnalyser) :=
  {| transactions := transactions self;
     daily_volume := daily_volume self;
     daily_value := daily_value self;
     product_volume := v;
     monthly_staff_sales := monthly_staff_sales self;
     hourly_volumes := hourly_volumes self |}.

Definition set_monthly_staff_sales v (self : MonieshopAnalyser) :=
  {| transactions := transactions self;
     daily_volume := daily_volume self;
     daily_value := daily_value self;
     product_volume := product_volume self;
     monthly_staff_sales := v;
     hourly_volumes := hourly_volumes self |}.

Definition set_hourly_volumes v (self : MonieshopAnalyser) :=
  {| transactions := transactions self;
     daily_volume := daily_volume self;
     daily_value := daily_value self;
     product_volume := product_volume self;
     monthly_staff_sales := monthly_staff_sales self;
     hourly_volumes := v |}.

(** What [print_metrics] computes before it prints: the part of the method
    under its comment "Calculate results". The prints that follow format
    these values; their text (number formats, the month name) is not
    modelled, nor are the exceptions the formatting can raise on its own
    (an integer of more than 4300 digits written in decimal, a staff volume
    beyond the floats under [:.2f]). An outcome [OK m] of [print_metrics]
    says that the results [m] were computed. [staff_lines] is the sequence
    the last loop runs over. *)
Record metrics : Type := {
  highest_volume_day : date * Z;
  highest_value_day : date * float;
  most_sold_product : string * Z;
  monthly_top_staff : dict string (string * Z);
  staff_lines : list (string * (string * Z));
  peak_hour : Z * float
}.

Section AnalyserMethods.
Context `{Builtins}.

(** [sum(int(product['quantity']) for product in sale.products)] *)
Definition sale_volume_of (sale : Sale) : outcome Z :=
  foldM (fun acc product =>
           q <- of_option ValueError (py_int (quantity product)) ;;
           OK (acc + q))
        (products sale) 0.

Definition update_metrics (sale : Sale) : method unit :=
  (let date := date_of (timestamp sale) in
   let month := strftime_Ym (timestamp sale) in
   let hour := hour (timestamp sale) in
   sale_volume <- Meth.eval (fun _ => sale_volume_of sale) ;;
   (* daily metrics *)
   v <- Meth.eval (fun self =>
          OK (dict_get (daily_volume self) date 0 + sale_volume)) ;;
   Meth.assign (fun self =>
     set_daily_volume (dict_setitem (daily_volume self) date v) self) ;;
   v <- Meth.eval (fun self =>
          (a <- of_option ValueError (py_float (amount sale)) ;;
           OK (dict_get (daily_value self) date 0%float + a)%float)%py) ;;
   Meth.assign (fun self =>
     set_daily_value (dict_setitem (daily_value self) date v) self) ;;
   (* product volumes *)
   Meth.for_each (products sale) (fun product =>
     v <- Meth.eval (fun self =>
            (q <- of_option ValueError (py_int (quantity product)) ;;
             OK (dict_get (product_volume self) (product_id product) 0 + q))%py) ;;
     Meth.assign (fun self =>
       set_product_volume
         (dict_setitem (product_volume self) (product_id product) v) self)) ;;
   (* monthly staff sales *)
   Meth.assign (fun self =>
     set_monthly_staff_sales
       (dict_setitem (monthly_staff_sales self) month
          (dict_get (monthly_staff_sales self) month dict_new)) self) ;;
   v <- Meth.eval (fun self =>
          (staff_sales <- dict_getitem (monthly_staff_sales self) month ;;
           OK (dict_get staff_sales (staff sale) 0 + sale_volume))%py) ;;
   staff_sales <- Meth.eval (fun self =>
          dict_getitem (monthly_staff_sales self) month) ;;
   Meth.assign (fun self =>
     set_monthly_staff_sales
       (dict_setitem (monthly_staff_sales self) month
          (dict_setitem staff_sales (staff sale) v)) self) ;;
   (* hourly volumes *)
   absent <- Meth.eval (fun self =>
          OK (negb (dict_contains (hourly_volumes self) hour))) ;;
   (if absent : bool
    then Meth.assign (fun self =>
           set_hourly_volumes (dict_setitem (hourly_volumes self) hour []) self)
    else Meth.ret tt) ;;
   volumes <- Meth.eval (fun self => dict_getitem (hourly_volumes self) hour) ;;
   Meth.assign (fun self =>
     set_hourly_volumes
       (dict_setitem (hourly_volumes self) hour (volumes ++ [sale_volume])%list)
       self))%meth.

Definition print_metrics : method metrics :=
  (highest_volume_day <- Meth.eval (fun self =>
       max_by Z.gtb snd (items (daily_volume self))) ;;
   highest_value_day <- Meth.eval (fun self =>
       max_by float_gt snd (items (daily_value self))) ;;
   most_sold_product <- Meth.eval (fun self =>
       max_by Z.gtb snd (items (product_volume self))) ;;
   (* top staff per month *)
   monthly_top_staff <- Meth.eval (fun self =>
       foldM (fun monthly_top_staff '(month, staff) =>
                (top <- max_by Z.gtb snd (items staff) ;;
                 OK (dict_setitem monthly_top_staff month top))%py)
             (items (monthly_staff_sales self)) dict_new) ;;
   (* average hourly volume *)
   avg_hourly_volume <- Meth.eval (fun self =>
       foldM (fun avg_hourly_volume '(hour, volumes) =>
                (avg <- int_truediv (sum volumes) (len volumes) ;;
                 OK (dict_setitem avg_hourly_volume hour avg))%py)
             (items (hourly_volumes self)) dict_new) ;;
   peak_hour <- Meth.eval (fun _ =>
       max_by float_gt snd (items avg_hourly_volume)) ;;
   Meth.ret
     {| highest_volume_day := highest_volume_day;
        highest_value_day := highest_value_day;
        most_sold_product := most_sold_product;
        monthly_top_staff := monthly_top_staff;
        staff_lines := sorted_by String.ltb fst (items monthly_top_staff);
        peak_hour := peak_hour |})%meth.

(** The loop of [get_transactions] over the lines of the files, with its
    local list [transactions]. *)
Fixpoint read_lines (lines : list string) (transactions : list Sale)
  : method (list Sale) :=
  match lines with
  | [] => Meth.ret transactions
  | line :: rest =>
      (sale <- Meth.eval (fun _ => parse line) ;;
       update_metrics sale ;;
       read_lines rest (transactions ++ [sale])%list)%meth
  end.

(** [get_transactions], on the lines the files of the folder hold. *)
Definition get_transactions (lines : list string) : method unit :=
  (transactions <- read_lines lines [] ;;
   Meth.assign (set_transactions transactions))%meth.

Definition analyse_yearly_transactions (lines : list string) : method metrics :=
  (get_transactions lines ;; print_metrics)%meth.

(** The fold of [update_metrics] over a sequence of sales. *)
Definition update_all (sales : list Sale) : method unit :=
  Meth.for_each sales update_metrics.
End AnalyserMethods.

(* ================================================================== *)
(** * An implementation of the library functions

    [int] and [float] on ASCII text (ASCII digits, blanks of the C locale
    at both ends, at most 4300 digits for [int]), and [fromisoformat] on
    the forms [YYYY-MM-DD], [YYYY-MM-DD*HH], [YYYY-MM-DD*HH:MM] and
    [YYYY-MM-DD*HH:MM:SS] ([*] any one character), which is the form of the
    timestamps in the transaction files; the other forms the library reads
    (fractions of a second, offsets, the forms without dashes or colons)
    are refused here. Used for the closed examples only: the general
    theorems hold for every [Builtins]. *)

Module Concrete.

Definition is_digit (c : ascii) : bool :=
  let n := N_of_ascii c in ((48 <=? n) && (n <=? 57))%N.

Definition digit_val (c : ascii) : Z := Z.of_N (N_of_ascii c) - 48.

(** [digit (["_"] digit)*]: the digits of a run in which an underscore
    stands only between two digits. *)
Fixpoint digitpart (s : string) (after_digit : bool) : option (list Z) :=
  match s with
  | EmptyString => if after_digit then Some [] else None
  | String c r =>
      if is_digit c then option_map (cons (digit_val c)) (digitpart r true)
      else if Ascii.eqb c "_" && after_digit then
        match r with
        | String d _ => if is_digit d then digitpart r false else None
        | EmptyString => None
        end
      else None
  end.

Definition of_digits (ds : list Z) : Z :=
  fold_left (fun acc d => 10 * acc + d) ds 0.

(** An optional sign: whether it is a minus, and the rest. *)
Definition sign (s : string) : bool * string :=
  match s with
  | String "-" r => (true, r)
  | String "+" r => (false, r)
  | _ => (false, s)
  end.

(** The blanks [int] and [float] skip at both ends of ASCII text: tab to
    carriage return and the space, without the separators 28-31 that
    [str.strip] also removes. *)
Definition is_blank (c : ascii) : bool :=
  let n := N_of_ascii c in ((9 <=? n) && (n <=? 13) || (n =? 32))%N.

Fixpoint skip_blanks (s : string) : string :=
  match s with
  | String c s' => if is_blank c then skip_blanks s' else s
  | EmptyString => EmptyString
  end.

Fixpoint drop_blanks (s : string) : string :=
  match s with
  | EmptyString => EmptyString
  | String c s' =>
      match drop_blanks s' with
      | EmptyString => if is_blank c then EmptyString else String c EmptyString
      | r => String c r
      end
  end.

Definition trim (s : string) : string := drop_blanks (skip_blanks s).

(** [sys.get_int_max_str_digits()] as the interpreter starts: longer
    decimal text is refused with [ValueError]. *)
Definition int_max_str_digits : Z := 4300.

(** [int(s)] in base ten *)
Definition int (s : string) : option Z :=
  let (neg, body) := sign (trim s) in
  match digitpart body false with
  | Some ds =>
      if len ds >? int_max_str_digits then None
      else Some (if neg then - of_digits ds else of_digits ds)
  | None => None
  end.

(** Cut [s] at the first character satisfying [p]. *)
Fixpoint cut (p : ascii -> bool) (s : string) : string * option string :=
  match s with
  | EmptyString => (EmptyString, None)
  | String c r =>
      if p c then (EmptyString, Some r)
      else let (a, b) := cut p r in (String c a, b)
  end.

Definition lower (c : ascii) : ascii :=
  let n := N_of_ascii c in
  if ((65 <=? n) && (n <=? 90))%N then ascii_of_N (n + 32) else c.

Fixpoint lowercase (s : string) : string :=
  match s with
  | EmptyString => EmptyString
  | String c r => String (lower c) (lowercase r)
  end.

(** The binary64 value nearest to [(-1)^neg * m * 10^e], ties to even. *)
Definition decimal_to_float (neg : bool) (m e : Z) : float :=
  if m =? 0 then (if neg then neg_zero else zero)
  else
    let n := if neg then - m else m in
    SF2Prim (if 0 <=? e
             then binary_normalize prec emax (n * 10 ^ e) 0 false
             else SFdiv prec emax (Z2SF n) (Z2SF (10 ^ (- e)))).

(** Either part of a mantissa: empty, or a run of digits. *)
Definition opt_digitpart (s : string) : option (list Z) :=
  match s with
  | EmptyString => Some []
  | _ => digitpart s false
  end.

(** [float(s)] *)
Definition float (s : string) : option float :=
  let (neg, body) := sign (trim s) in
  let low := lowercase body in
  if String.eqb low "inf" || String.eqb low "infinity"
  then Some (if neg then neg_infinity else infinity)
  else if String.eqb low "nan" then Some nan
  else
    let (mant, ex) := cut (fun c => Ascii.eqb (lower c) "e") body in
    let (ip, fp) := cut (fun c => Ascii.eqb c ".") mant in
    let e :=
      match ex with
      | None => Some 0
      | Some t =>
          let (eneg, ebody) := sign t in
          match digitpart ebody false with
          | Some ds => Some (if eneg then - of_digits ds else of_digits ds)
          | None => None
          end
      end in
    let m :=
      match fp with
      | None => option_map (fun ds => (ds, @nil Z)) (digitpart ip false)
      | Some f =>
          match opt_digitpart ip, opt_digitpart f with
          | Some [], Some [] => None
          | Some a, Some b => Some (a, b)
          | _, _ => None
          end
      end in
    match m, e with
    | Some (a, b), Some e =>
        Some (decimal_to_float neg (of_digits (a ++ b)) (e - len b))
    | _, _ => None
    end.

(** Exactly [n] digits, then the rest. *)
Fixpoint take_digits (n : nat) (acc : Z) (s : string) : option (Z * string) :=
  match n with
  | O => Some (acc, s)
  | S n' =>
      match s with
      | String c r =>
          if is_digit c then take_digits n' (10 * acc + digit_val c) r else None
      | EmptyString => None
      end
  end.

Definition expect (c : ascii) (s : string) : option string :=
  match s with
  | String c' r => if Ascii.eqb c c' then Some r else None
  | EmptyString => None
  end.

Definition obind {A B} (o : option A) (k : A -> option B) : option B :=
  match o with Some a => k a | None => None end.

(** [HH[:MM[:SS]]] *)
Definition iso_time (s : string) : option (Z * Z * Z) :=
  obind (take_digits 2 0 s) (fun '(h, s) =>
  match s with
  | EmptyString => Some (h, 0, 0)
  | _ =>
    obind (expect ":" s) (fun s =>
    obind (take_digits 2 0 s) (fun '(mi, s) =>
    match s with
    | EmptyString => Some (h, mi, 0)
    | _ =>
      obind (expect ":" s) (fun s =>
      obind (take_digits 2 0 s) (fun '(se, s) =>
      match s with
      | EmptyString => Some (h, mi, se)
      | _ => None
      end))
    end))
  end).

Definition fromisoformat (s : string) : option datetime :=
  obind (take_digits 4 0 s) (fun '(y, s) =>
  obind (expect "-" s) (fun s =>
  obind (take_digits 2 0 s) (fun '(mo, s) =>
  obind (expect "-" s) (fun s =>
  obind (take_digits 2 0 s) (fun '(d, s) =>
  obind (match s with
         | EmptyString => Some (0, 0, 0)
         | String _ t => iso_time t
         end) (fun '(h, mi, se) =>
  let dt := {| year := y; month := mo; day := d;
               hour := h; minute := mi; second := se; microsecond := 0 |} in
  if valid_datetime dt then Some dt else None)))))).

Lemma fromisoformat_valid s dt :
  fromisoformat s = Some dt -> valid_datetime dt = true.
Proof.
  unfold fromisoformat, obind.
  repeat match goal with
         | |- context [match ?x with _ => _ end] =>
             destruct x eqn:?; try discriminate
         end.
  intros E; inversion E; subst; assumption.
Qed.

#[export] Instance builtins : Builtins :=
  Build_Builtins int float fromisoformat fromisoformat_valid.

(** ** Checks of the implementation on sample texts *)

Example int_samples :
  int " -1_000 " = Some (-1000) /\ int "007" = Some 7 /\ int "+5" = Some 5
  /\ int "" = None /\ int "x" = None /\ int "1__0" = None /\ int "5_" = None
  /\ int "1.0" = None.
Proof. repeat split. Qed.

Example int_blank_samples :
  int (String (ascii_of_N 28) "5") = None
  /\ strip (String (ascii_of_N 28) "5") = "5"
  /\ float (String (ascii_of_N 28) "5") = None
  /\ int (String (ascii_of_N 9) "5 ") = Some 5.
Proof. repeat split. Qed.

Example float_samples :
  float "500.00" = Some 500%float
  /\ float " 1_0.2_5E+1 " = Some 102.5%float
  /\ float ".5" = Some 0.5%float /\ float "1." = Some 1%float
  /\ float "-0.0" = Some neg_zero /\ float "1e400" = Some infinity
  /\ float "-Infinity" = Some neg_infinity
  /\ float "0.1" = Some (1 / 10)%float
  /\ float "2114.235" = Some (2114235 / 1000)%float
  /\ float "" = None /\ float "." = None /\ float "1e" = None
  /\ float "12.5USD" = None /\ float "0x10" = None.
Proof. repeat split. Qed.

Example fromisoformat_samples :
  fromisoformat "2025-01-01T16:58:53"
    = Some {| year := 2025; month := 1; day := 1;
              hour := 16; minute := 58; second := 53; microsecond := 0 |}
  /\ fromisoformat "2024-02-29"
    = Some {| year := 2024; month := 2; day := 29;
              hour := 0; minute := 0; second := 0; microsecond := 0 |}
  /\ fromisoformat "2025-02-29" = None
  /\ fromisoformat "2025-01-01T24:00:00" = None
  /\ fromisoformat "01/01/2025" = None.
Proof. repeat split. Qed.

End Concrete.

(* ================================================================== *)
(** * Dictionaries: lookups after assignments *)

Section DictFacts.
Context {K V : Type} `{EqDec K}.
Implicit Types (d : dict K V) (k : K) (v : V).

Lemma eqb_refl k : eqb k k = true.
Proof. destruct (eqb_spec k k); congruence. Qed.

Lemma eqb_neq k k' : k <> k' -> eqb k k' = false.
Proof. destruct (eqb_spec k k'); congruence. Qed.

Lemma lookup_setitem_eq d k v : dict_lookup (dict_setitem d k v) k = Some v.
Proof.
  induction d as [|[k' v'] d IH]; simpl.
  - now rewrite eqb_refl.
  - destruct (eqb k' k) eqn:E; simpl; rewrite E; auto.
Qed.

Lemma lookup_setitem_neq d k k' v :
  k <> k' -> dict_lookup (dict_setitem d k v) k' = dict_lookup d k'.
Proof.
  intros N. induction d as [|[k1 v1] d IH]; simpl.
  - now rewrite eqb_neq.
  - destruct (eqb_spec k1 k); simpl.
    + subst k1. now rewrite !eqb_neq.
    + now rewrite IH.
Qed.

Lemma lookup_setitem d k k' v :
  dict_lookup (dict_setitem d k v) k' =
  if eqb k k' then Some v else dict_lookup d k'.
Proof.
  destruct (eqb_spec k k').
  - subst. apply lookup_setitem_eq.
  - now apply lookup_setitem_neq.
Qed.

Lemma setitem_setitem d k v v' :
  dict_setitem (dict_setitem d k v) k v' = dict_setitem d k v'.
Proof.
  induction d as [|[k1 v1] d IH]; simpl.
  - now rewrite eqb_refl.
  - destruct (eqb k1 k) eqn:E; simpl; rewrite E; congruence.
Qed.

Lemma keys_setitem_present d k v :
  dict_lookup d k <> None -> keys (dict_setitem d k v) = keys d.
Proof.
  induction d as [|[k1 v1] d IH]; simpl; [congruence|].
  destruct (eqb k1 k); simpl; intros; f_equal; auto.
Qed.

Lemma keys_setitem_absent d k v :
  dict_lookup d k = None -> keys (dict_setitem d k v) = (keys d ++ [k])%list.
Proof.
  induction d as [|[k1 v1] d IH]; simpl; auto.
  destruct (eqb k1 k); simpl; [discriminate|]. intros; f_equal; auto.
Qed.

Lemma lookup_None_keys d k : dict_lookup d k = None <-> ~ In k (keys d).
Proof.
  induction d as [|[k1 v1] d IH]; simpl; [tauto|].
  destruct (eqb_spec k1 k); split; intros; try discriminate.
  - tauto.
  - intros [E|I]; [congruence|]. now apply IH.
  - apply IH. tauto.
Qed.

Lemma lookup_In d k v : dict_lookup d k = Some v -> In (k, v) (items d).
Proof.
  induction d as [|[k1 v1] d IH]; simpl; [discriminate|].
  destruct (eqb_spec k1 k); intros E.
  - left. congruence.
  - right. auto.
Qed.

Lemma In_lookup d k v :
  NoDup (keys d) -> In (k, v) (items d) -> dict_lookup d k = Some v.
Proof.
  induction d as [|[k1 v1] d IH]; simpl; [tauto|].
  intros N [E|I]; inversion N; subst.
  - inversion E; subst. now rewrite eqb_refl.
  - destruct (eqb_spec k1 k); auto.
    subst. exfalso. apply H2. change k with (fst (k, v)). now apply in_map.
Qed.

Lemma NoDup_keys_setitem d k v :
  NoDup (keys d) -> NoDup (keys (dict_setitem d k v)).
Proof.
  intros N. destruct (dict_lookup d k) eqn:E.
  - rewrite keys_setitem_present; congruence.
  - rewrite keys_setitem_absent by assumption.
    apply NoDup_app; auto.
    + repeat constructor. simpl. tauto.
    + intros x I [<-|[]]. now apply lookup_None_keys in E.
Qed.
End DictFacts.

(* ================================================================== *)
(** * What one call of [update_metrics] does *)

Definition is_some {A} (o : option A) : bool :=
  match o with Some _ => true | None => false end.

(** [d[k] = d.get(k, 0) + v] *)
Definition add_to {K} `{EqDec K} (d : dict K Z) (k : K) (v : Z) : dict K Z :=
  dict_setitem d k (dict_get d k 0 + v).

Section UpdateSpec.
Context `{Builtins}.

(** The quantity [int] reads for a product, and the volume and value of a
    sale; meaningful on the sales [int] and [float] accept. *)
Definition qty (p : product) : Z :=
  match py_int (quantity p) with Some q => q | None => 0 end.

Definition volume (sale : Sale) : Z := sum (map qty (products sale)).

Definition value (sale : Sale) : float :=
  match py_float (amount sale) with Some a => a | None => 0%float end.

(** The sales [update_metrics] accepts: [int] reads every quantity and
    [float] reads the amount. *)
Definition well_formed (sale : Sale) : bool :=
  forallb (fun p => is_some (py_int (quantity p))) (products sale)
  && is_some (py_float (amount sale)).

(** The state after a successful [update_metrics]. *)
Definition apply_sale (self : MonieshopAnalyser) (sale : Sale) : MonieshopAnalyser :=
  let date := date_of (timestamp sale) in
  let month := strftime_Ym (timestamp sale) in
  let hour := hour (timestamp sale) in
  {| transactions := transactions self;
     daily_volume := add_to (daily_volume self) date (volume sale);
     daily_value :=
       dict_setitem (daily_value self) date
         (dict_get (daily_value self) date 0 + value sale)%float;
     product_volume :=
       fold_left (fun pv p => add_to pv (product_id p) (qty p))
                 (products sale) (product_volume self);
     monthly_staff_sales :=
       dict_setitem (monthly_staff_sales self) month
         (add_to (dict_get (monthly_staff_sales self) month dict_new)
                 (staff sale) (volume sale));
     hourly_volumes :=
       dict_setitem (hourly_volumes self) hour
         (dict_get (hourly_volumes self) hour [] ++ [volume sale])%list |}.

Let read_qty := fun acc product =>
  (q <- of_option ValueError (py_int (quantity product)) ;; OK (acc + q))%py.

Lemma foldM_quantities_ok ps acc :
  forallb (fun p => is_some (py_int (quantity p))) ps = true ->
  foldM read_qty ps acc = OK (fold_left Z.add (map qty ps) acc).
Proof.
  revert acc. induction ps as [|p ps IH]; simpl; intros acc E; auto.
  apply andb_prop in E as [E1 E2]. unfold read_qty at 1.
  destruct (py_int (quantity p)) eqn:Q; [simpl|discriminate].
  assert (Z : qty p = z) by (unfold qty; now rewrite Q).
  rewrite IH by assumption. now rewrite Z.
Qed.

Lemma foldM_quantities_fail ps acc :
  forallb (fun p => is_some (py_int (quantity p))) ps = false ->
  foldM read_qty ps acc = Raise ValueError.
Proof.
  revert acc. induction ps as [|p ps IH]; simpl; intros acc E; [discriminate|].
  unfold read_qty at 1.
  destruct (py_int (quantity p)); simpl in *; auto.
Qed.

Lemma for_each_products ps self :
  forallb (fun p => is_some (py_int (quantity p))) ps = true ->
  Meth.for_each ps (fun product =>
     v <- Meth.eval (fun self =>
            (q <- of_option ValueError (py_int (quantity product)) ;;
             OK (dict_get (product_volume self) (product_id product) 0 + q))%py) ;;
     Meth.assign (fun self =>
       set_product_volume
         (dict_setitem (product_volume self) (product_id product) v) self))%meth
    self
  = (OK tt,
     set_product_volume
       (fold_left (fun pv p => add_to pv (product_id p) (qty p))
                  ps (product_volume self)) self).
Proof.
  revert self. induction ps as [|p ps IH]; simpl; intros self E.
  - now destruct self.
  - apply andb_prop in E as [E1 E2].
    unfold Meth.bind at 1. unfold Meth.bind at 1, Meth.eval, Meth.assign.
    destruct (py_int (quantity p)) eqn:Q; [simpl|discriminate].
    assert (Z : qty p = z) by (unfold qty; now rewrite Q).
    rewrite IH by assumption. simpl. now rewrite Z.
Qed.

Theorem update_metrics_ok sale self :
  well_formed sale = true ->
  update_metrics sale self = (OK tt, apply_sale self sale).
Proof.
  unfold well_formed. intros W. apply andb_prop in W as [W1 W2].
  unfold update_metrics, sale_volume_of.
  unfold Meth.bind at 1. unfold Meth.eval at 1.
  fold read_qty. rewrite foldM_quantities_ok by assumption.
  fold (sum (map qty (products sale))). fold (volume sale).
  unfold Meth.bind at 1. unfold Meth.eval at 1.
  unfold Meth.bind at 1. unfold Meth.assign at 1.
  unfold Meth.bind at 1. unfold Meth.eval at 1.
  assert (V : py_float (amount sale) = Some (value sale)).
  { unfold value. destruct (py_float (amount sale)); [reflexivity|discriminate]. }
  simpl daily_value. rewrite V. simpl.
  unfold Meth.bind at 1. unfold Meth.assign at 1.
  unfold Meth.bind at 1. rewrite for_each_products by assumption.
  unfold Meth.bind, Meth.assign, Meth.eval, Meth.ret. simpl.
  unfold dict_getitem. rewrite !lookup_setitem_eq. simpl.
  rewrite setitem_setitem.
  unfold apply_sale, add_to, dict_contains, dict_get.
  destruct (dict_lookup (hourly_volumes self) (hour (timestamp sale))) eqn:Hh;
    simpl; [rewrite Hh; reflexivity | rewrite lookup_setitem_eq].
  cbn [of_option]. rewrite setitem_setitem. reflexivity.
Qed.

Theorem update_metrics_fail sale self :
  well_formed sale = false ->
  fst (update_metrics sale self) = Raise ValueError.
Proof.
  unfold well_formed. intros W.
  unfold update_metrics, sale_volume_of.
  unfold Meth.bind at 1. unfold Meth.eval at 1. fold read_qty.
  destruct (forallb (fun p => is_some (py_int (quantity p))) (products sale)) eqn:Q.
  - rewrite foldM_quantities_ok by assumption.
    unfold Meth.bind at 1. unfold Meth.eval at 1.
    unfold Meth.bind at 1. unfold Meth.assign at 1.
    unfold Meth.bind at 1. unfold Meth.eval at 1.
    simpl in W. destruct (py_float (amount sale)); [discriminate|]. reflexivity.
  - rewrite foldM_quantities_fail by assumption. reflexivity.
Qed.
End UpdateSpec.

(* ================================================================== *)
(** * The parser *)

Section ParserFacts.
Context `{Builtins}.

Let add_product := fun formatted_products product =>
  (p <- unpack_product product ;; OK (formatted_products ++ [p])%list)%py.

Lemma unpack_product_ok tok :
  is_ok (unpack_product tok) = true <-> List.length (split ":" tok) = 2%nat.
Proof.
  unfold unpack_product.
  destruct (split ":" tok) as [|a [|b [|c l]]]; simpl; split;
    intros E; try discriminate; reflexivity.
Qed.

Lemma foldM_products_ok toks acc :
  is_ok (foldM add_product toks acc) = true <->
  Forall (fun tok => List.length (split ":" tok) = 2%nat) toks.
Proof.
  revert acc. induction toks as [|tok toks IH]; simpl; intros acc.
  - split; auto.
  - rewrite Forall_cons_iff, <- unpack_product_ok. unfold add_product at 1.
    destruct (unpack_product tok) as [p|e]; simpl.
    + rewrite IH. tauto.
    + split; [discriminate | intros [E _]; discriminate].
Qed.

Lemma format_products_ok blob :
  is_ok (format_products blob) = true <->
  Forall (fun tok => List.length (split ":" tok) = 2%nat)
         (split "|" (slice_1_m1 blob)).
Proof. apply foldM_products_ok. Qed.

Lemma foldM_products_raises toks acc e :
  foldM add_product toks acc = Raise e -> e = ValueError.
Proof.
  revert acc. induction toks as [|tok toks IH]; simpl; intros acc.
  - discriminate.
  - unfold add_product at 1, unpack_product.
    destruct (split ":" tok) as [|a [|b [|c l]]]; simpl;
      try (intros E; inversion E; auto; fail).
    apply IH.
Qed.

Lemma format_products_raises blob e :
  format_products blob = Raise e -> e = ValueError.
Proof. apply foldM_products_raises. Qed.

Lemma Sale_init_ok_iff record :
  is_ok (Sale_init record) = true <->
  exists r0 r1 r2 r3 rest,
    record = r0 :: r1 :: r2 :: r3 :: rest /\
    fromisoformat r1 <> None /\
    Forall (fun tok => List.length (split ":" tok) = 2%nat)
           (split "|" (slice_1_m1 r2)).
Proof.
  unfold Sale_init, index, format_timestamp.
  destruct record as [|r0 [|r1 [|r2 [|r3 rest]]]]; simpl;
    try (split; [discriminate | intros (?&?&?&?&?&E&_); discriminate]).
  - destruct (fromisoformat r1); simpl;
      split; try discriminate; intros (?&?&?&?&?&E&_); discriminate.
  - destruct (fromisoformat r1) eqn:T; simpl.
    + destruct (format_products r2) eqn:P; simpl;
        split; try discriminate; intros (?&?&?&?&?&E&_); discriminate.
    + split; [discriminate | intros (?&?&?&?&?&E&_); discriminate].
  - destruct (fromisoformat r1) eqn:T; simpl.
    + pose proof (format_products_ok r2) as P.
      destruct (format_products r2); simpl in *; split.
      * intros _. exists r0, r1, r2, r3, rest.
        repeat split; [congruence | now apply P].
      * reflexivity.
      * discriminate.
      * intros (?&?&?&?&?&E&_&F). inversion E; subst. now apply P.
    + split; [discriminate|].
      intros (?&?&?&?&?&E&N&_). inversion E; subst. congruence.
Qed.
End ParserFacts.

Section ParserClaims.
Context `{Builtins}.

Lemma not_all_split_in_two toks :
  ~ Forall (fun tok => List.length (split ":" tok) = 2%nat) toks <->
  exists tok, In tok toks /\ List.length (split ":" tok) <> 2%nat.
Proof.
  rewrite <- Exists_exists. split.
  - apply neg_Forall_Exists_neg. intros tok. apply Nat.eq_dec.
  - intros E F. apply Exists_exists in E as (tok & I & N).
    rewrite Forall_forall in F. auto.
Qed.

Lemma Sale_init_raises record e :
  Sale_init record = Raise e -> e = IndexError \/ e = ValueError.
Proof.
  unfold Sale_init, index, format_timestamp.
  destruct record as [|r0 [|r1 [|r2 [|r3 rest]]]]; simpl;
    try (intros E; inversion E; auto; fail);
    destruct (fromisoformat r1); simpl;
    try (intros E; inversion E; auto; fail);
    destruct (format_products r2) eqn:P; simpl;
    try (intros E; inversion E; subst; auto; fail);
    intros E; inversion E; subst; right; eapply format_products_raises; eauto.
Qed.

(** C2 (as the code has it). Building a [Sale] from a line raises exactly
    when the line has fewer than four comma-separated fields, or
    [fromisoformat] rejects the second field, or some [|]-separated token
    of the third field without its first and last characters does not
    split into exactly two tokens at [:]. The exception is an
    [IndexError] or a [ValueError]. Neither the bracket characters nor
    the quantity text are looked at. *)
Theorem parse_fails_iff (line : string) :
  let record := split "," (strip line) in
  (is_ok (parse line) = false <->
     (List.length record < 4)%nat
     \/ (exists ts, nth_error record 1 = Some ts /\ fromisoformat ts = None)
     \/ (exists blob tok,
           nth_error record 2 = Some blob /\
           In tok (split "|" (slice_1_m1 blob)) /\
           List.length (split ":" tok) <> 2%nat))
  /\ (forall e, parse line = Raise e -> e = IndexError \/ e = ValueError).
Proof.
  intros record. split; [|apply Sale_init_raises].
  unfold parse. fold record.
  rewrite <- not_true_iff_false, Sale_init_ok_iff. split.
  - intros N.
    destruct record as [|r0 [|r1 [|r2 [|r3 rest]]]]; simpl;
      try (left; lia).
    right. destruct (fromisoformat r1) eqn:T.
    + right. exists r2.
      destruct (proj1 (not_all_split_in_two (split "|" (slice_1_m1 r2))))
        as (tok & I & L).
      * intros F. apply N. exists r0, r1, r2, r3, rest.
        repeat split; [congruence | assumption].
      * exists tok. auto.
    + left. exists r1. auto.
  - intros [L | [(ts & E & T) | (blob & tok & E & I & L)]]
           (r0 & r1 & r2 & r3 & rest & R & T' & F); rewrite R in *; simpl in *.
    + lia.
    + inversion E; subst. congruence.
    + inversion E; subst. rewrite Forall_forall in F. now apply L, F.
Qed.
End ParserClaims.

(* ================================================================== *)
(** * [update_metrics]: when it succeeds and what it adds *)

Section UpdateClaims.
Context `{Builtins}.

(** C3 (as the code has it). [update_metrics] succeeds exactly on the
    sales whose quantity texts [int] accepts and whose amount text
    [float] accepts, and raises [ValueError] on every other sale: the
    conversions are made by [update_metrics], not by the parser. *)
Theorem update_metrics_succeeds_iff (sale : Sale) (self : MonieshopAnalyser) :
  (fst (update_metrics sale self) = OK tt <->
     (forall p, In p (products sale) -> py_int (quantity p) <> None)
     /\ py_float (amount sale) <> None)
  /\ (fst (update_metrics sale self) <> OK tt ->
      fst (update_metrics sale self) = Raise ValueError).
Proof.
  assert (W : well_formed sale = true <->
              (forall p, In p (products sale) -> py_int (quantity p) <> None)
              /\ py_float (amount sale) <> None).
  { unfold well_formed. rewrite andb_true_iff, forallb_forall.
    split; intros [A B]; split.
    - intros p I. specialize (A p I). destruct (py_int (quantity p)); [congruence|discriminate].
    - destruct (py_float (amount sale)); [congruence|discriminate].
    - intros p I. specialize (A p I). now destruct (py_int (quantity p)).
    - now destruct (py_float (amount sale)). }
  rewrite <- W.
  destruct (well_formed sale) eqn:E.
  - rewrite update_metrics_ok by assumption. simpl. split; [tauto | congruence].
  - rewrite update_metrics_fail by assumption. split; [|reflexivity].
    split; discriminate.
Qed.

Lemma quantities_read (ps : list product) :
  forallb (fun p => is_some (py_int (quantity p))) ps = true ->
  map (fun p => py_int (quantity p)) ps = map Some (map qty ps).
Proof.
  induction ps as [|p ps IH]; simpl; intros W; [reflexivity|].
  apply andb_prop in W as [W1 W2]. rewrite IH by assumption.
  f_equal. unfold qty.
  destruct (py_int (quantity p)); [reflexivity|discriminate].
Qed.

Lemma sum_fold_right (l : list Z) : sum l = fold_right Z.add 0 l.
Proof. unfold sum. apply fold_symmetric; intros; lia. Qed.

(** C9. For a sale [update_metrics] accepts, [int] reads a number from
    the quantity text of every product, and the sum of these numbers, in
    the mathematical sense, is what [update_metrics] computes as the sale's
    volume; [update_metrics] returns, and that one sum is the number added
    to the day's volume, added to the volume of the sale's staff in the
    sale's month, and appended to the volumes of the sale's hour. *)
Theorem sale_volume_in_every_aggregate (sale : Sale) (self : MonieshopAnalyser) :
  well_formed sale = true ->
  let date := date_of (timestamp sale) in
  let month := strftime_Ym (timestamp sale) in
  let hour := hour (timestamp sale) in
  exists quantities self',
    let sale_volume := fold_right Z.add 0 quantities in
    map (fun p => py_int (quantity p)) (products sale) = map Some quantities /\
    sale_volume_of sale = OK sale_volume /\
    volume sale = sale_volume /\
    update_metrics sale self = (OK tt, self') /\
    dict_lookup (daily_volume self') date
      = Some (dict_get (daily_volume self) date 0 + sale_volume) /\
    (exists staff_sales,
        dict_lookup (monthly_staff_sales self') month = Some staff_sales /\
        dict_lookup staff_sales (staff sale)
          = Some (dict_get (dict_get (monthly_staff_sales self) month dict_new)
                           (staff sale) 0 + sale_volume)) /\
    dict_lookup (hourly_volumes self') hour
      = Some (dict_get (hourly_volumes self) hour [] ++ [sale_volume])%list.
Proof.
  intros W date month hour.
  exists (map qty (products sale)), (apply_sale self sale).
  cbv zeta. rewrite <- sum_fold_right. fold (volume sale).
  assert (Q : forallb (fun p => is_some (py_int (quantity p))) (products sale)
              = true).
  { unfold well_formed in W. now apply andb_prop in W as [W _]. }
  split; [now apply quantities_read|].
  split; [unfold sale_volume_of; now apply foldM_quantities_ok|].
  split; [reflexivity|].
  split; [now apply update_metrics_ok|].
  unfold apply_sale, add_to; simpl. fold date month hour.
  rewrite !lookup_setitem_eq. repeat split.
  eexists. split; [reflexivity|]. now rewrite lookup_setitem_eq.
Qed.
End UpdateClaims.

(* ================================================================== *)
(** * [print_metrics]: an empty analyser, and purity *)

Section ReportClaims.
Context `{Builtins}.

(** C4. On an analyser that never received a sale, [print_metrics]
    raises [ValueError] ([max] of an empty sequence) and returns no
    metrics; so does the whole analysis of a folder without lines. *)
Theorem print_metrics_empty_raises :
  print_metrics MonieshopAnalyser_init = (Raise ValueError, MonieshopAnalyser_init)
  /\ fst (analyse_yearly_transactions [] MonieshopAnalyser_init) = Raise ValueError.
Proof. split; reflexivity. Qed.

(** A method that leaves [self] as it found it. *)
Definition read_only {A} (m : method A) : Prop :=
  forall self, snd (m self) = self.

Lemma read_only_eval {A} (e : MonieshopAnalyser -> outcome A) :
  read_only (Meth.eval e).
Proof. intros self. reflexivity. Qed.

Lemma read_only_ret {A} (a : A) : read_only (Meth.ret a).
Proof. intros self. reflexivity. Qed.

Lemma read_only_bind {A B} (m : method A) (k : A -> method B) :
  read_only m -> (forall a, read_only (k a)) -> read_only (Meth.bind m k).
Proof.
  intros Hm Hk self. unfold Meth.bind. specialize (Hm self).
  destruct (m self) as [[a|e] self']; simpl in *; subst; auto.
  apply Hk.
Qed.

Lemma print_metrics_read_only : read_only print_metrics.
Proof.
  unfold print_metrics.
  repeat (apply read_only_bind; [apply read_only_eval | intros ?]).
  apply read_only_ret.
Qed.

(** [n] calls of [print_metrics] in a row: the results, and the final state. *)
Fixpoint print_metrics_times (n : nat) (self : MonieshopAnalyser)
  : list (outcome metrics) * MonieshopAnalyser :=
  match n with
  | O => ([], self)
  | S n' =>
      let (r, self') := print_metrics self in
      let (rs, self'') := print_metrics_times n' self' in
      (r :: rs, self'')
  end.

(** C8. [print_metrics] assigns to no attribute: the analyser, and so
    each of the five dictionaries, is the same after the call, however
    it ends; any number of calls in a row return the same result and
    leave the analyser as it was. *)
Theorem print_metrics_pure (self : MonieshopAnalyser) :
  snd (print_metrics self) = self
  /\ print_metrics (snd (print_metrics self)) = print_metrics self
  /\ forall n, print_metrics_times n self
               = (repeat (fst (print_metrics self)) n, self).
Proof.
  pose proof (print_metrics_read_only self) as P.
  split; [assumption|]. split; [now rewrite P|].
  induction n as [|n IH]; simpl; [reflexivity|].
  destruct (print_metrics self) as [r self'] eqn:E. simpl in *. subst self'.
  now rewrite IH.
Qed.
End ReportClaims.

(* ================================================================== *)
(** * [max] returns a maximal item *)

Section MaxFacts.
Context {A B : Type}.
Variable gt : B -> B -> bool.
Variable key : A -> B.
Hypothesis gt_trans :
  forall a b c, gt a b = true -> gt b c = true -> gt a c = true.
Hypothesis gt_irrefl : forall a, gt a a = false.

Lemma gt_asym a b : gt a b = true -> gt b a = false.
Proof.
  intros G. destruct (gt b a) eqn:G'; auto.
  pose proof (gt_trans G G') as C. now rewrite gt_irrefl in C.
Qed.

Lemma max_from_spec l : forall best,
  let r := max_from gt key best l in
  (r = best \/ gt (key r) (key best) = true)
  /\ In r (best :: l)
  /\ forall x, In x l -> gt (key x) (key r) = false.
Proof.
  induction l as [|x l IH]; intros best; simpl.
  - repeat split; auto. intros _ [].
  - destruct (IH (if gt (key x) (key best) then x else best)) as (Hr & Hin & Hmax).
    set (r := max_from gt key (if gt (key x) (key best) then x else best) l) in *.
    destruct (gt (key x) (key best)) eqn:G.
    + split; [|split].
      * right. destruct Hr as [->|Hr]; eauto.
      * simpl in Hin. tauto.
      * intros y [<-|I]; auto.
        destruct Hr as [->|Hr]; auto using gt_asym.
    + split; [|split]; auto.
      * simpl in Hin. tauto.
      * intros y [<-|I]; auto.
        destruct Hr as [->|Hr]; auto.
        destruct (gt (key x) (key r)) eqn:G'; auto.
        rewrite (gt_trans G' Hr) in G. discriminate.
Qed.

Lemma max_by_spec l r :
  max_by gt key l = OK r ->
  In r l /\ forall x, In x l -> gt (key x) (key r) = false.
Proof.
  destruct l as [|best l]; simpl; [discriminate|].
  intros E. inversion E; subst. clear E.
  destruct (max_from_spec l best) as (Hr & Hin & Hmax).
  split; [exact Hin|]. intros x [<-|I]; auto.
  destruct Hr as [->|Hr]; auto using gt_asym.
Qed.
End MaxFacts.

Lemma max_by_ok_iff {A B} (gt : B -> B -> bool) (key : A -> B) l :
  is_ok (max_by gt key l) = true <-> l <> [].
Proof. destruct l; simpl; split; congruence. Qed.

Lemma max_by_raises {A B} (gt : B -> B -> bool) (key : A -> B) l e :
  max_by gt key l = Raise e -> l = [] /\ e = ValueError.
Proof. destruct l; simpl; intros E; inversion E; auto. Qed.



(** ** The order of floats *)

Lemma SFltb_trans (x y z : spec_float) :
  SFltb x y = true -> SFltb y z = true -> SFltb x z = true.
Proof.
  unfold SFltb, SFcompare.
  destruct x as [[]|[]| |[] mx ex], y as [[]|[]| |[] my ey],
           z as [[]|[]| |[] mz ez];
    try discriminate; try reflexivity; intros P Q;
    change (Pos.compare_cont Eq) with Pos.compare in *;
    repeat match goal with
    | H : context [(?a ?= ?b)%Z] |- _ =>
        destruct (Z.compare_spec a b); try discriminate
    | H : context [(?a ?= ?b)%positive] |- _ =>
        destruct (Pos.compare_spec a b); try discriminate
    end;
    repeat match goal with
    | |- context [(?a ?= ?b)%Z] => destruct (Z.compare_spec a b)
    | |- context [(?a ?= ?b)%positive] => destruct (Pos.compare_spec a b)
    end; simpl in *; try reflexivity; try discriminate; try lia.
Qed.

Lemma SFltb_irrefl (x : spec_float) : SFltb x x = false.
Proof.
  unfold SFltb, SFcompare.
  destruct x as [[]|[]| |[] mx ex]; try reflexivity;
    change (Pos.compare_cont Eq) with Pos.compare;
    rewrite Z.compare_refl, Pos.compare_refl; reflexivity.
Qed.

Lemma float_gt_trans a b c :
  float_gt a b = true -> float_gt b c = true -> float_gt a c = true.
Proof.
  unfold float_gt. rewrite !ltb_spec. intros P Q.
  exact (SFltb_trans _ _ _ Q P).
Qed.

Lemma float_gt_irrefl a : float_gt a a = false.
Proof. unfold float_gt. rewrite ltb_spec. apply SFltb_irrefl. Qed.

(* ================================================================== *)
(** * Runs of [update_metrics] and of [get_transactions] *)

Section Runs.
Context `{Builtins}.

(** The state after the sales [update_metrics] accepted, in order. *)
Definition apply_sales (self : MonieshopAnalyser) (sales : list Sale) : MonieshopAnalyser :=
  fold_left apply_sale sales self.

Lemma update_all_ok sales : forall self,
  forallb well_formed sales = true ->
  update_all sales self = (OK tt, apply_sales self sales).
Proof.
  induction sales as [|s sales IH]; simpl; intros self W; [reflexivity|].
  apply andb_prop in W as [W1 W2].
  unfold update_all in *. simpl. unfold Meth.bind at 1.
  rewrite update_metrics_ok by assumption. now apply IH.
Qed.

Lemma update_all_inv sales : forall self self',
  update_all sales self = (OK tt, self') ->
  forallb well_formed sales = true /\ self' = apply_sales self sales.
Proof.
  induction sales as [|s sales IH]; simpl; intros self self' E.
  - inversion E. auto.
  - unfold update_all in *. simpl in E. unfold Meth.bind at 1 in E.
    destruct (well_formed s) eqn:W.
    + rewrite update_metrics_ok in E by assumption.
      apply IH in E as [E1 E2]. auto.
    + pose proof (update_metrics_fail s self W) as F.
      destruct (update_metrics s self) as [[[]|e] st]; simpl in F; discriminate.
Qed.

Lemma read_lines_inv lines : forall acc self sales' self',
  read_lines lines acc self = (OK sales', self') ->
  exists sales,
    Forall2 (fun line sale => parse line = OK sale) lines sales
    /\ forallb well_formed sales = true
    /\ sales' = (acc ++ sales)%list
    /\ self' = apply_sales self sales.
Proof.
  induction lines as [|line lines IH]; simpl; intros acc self sales' self' E.
  - inversion E; subst. exists []. rewrite app_nil_r. repeat split; constructor.
  - unfold Meth.bind at 1, Meth.eval at 1 in E.
    destruct (parse line) as [sale|e] eqn:P; [|discriminate].
    unfold Meth.bind at 1 in E.
    destruct (well_formed sale) eqn:W.
    + rewrite update_metrics_ok in E by assumption.
      apply IH in E as (sales & F & WF & -> & ->).
      exists (sale :: sales). simpl. rewrite W, <- app_assoc.
      repeat split; auto.
    + pose proof (update_metrics_fail sale self W) as F.
      destruct (update_metrics sale self) as [[[]|e] st]; simpl in F; discriminate.
Qed.

Lemma read_lines_ok lines : forall acc self sales,
  Forall2 (fun line sale => parse line = OK sale) lines sales ->
  forallb well_formed sales = true ->
  read_lines lines acc self = (OK (acc ++ sales)%list, apply_sales self sales).
Proof.
  induction lines as [|line lines IH]; intros acc self sales F W;
    inversion F; subst; simpl.
  - now rewrite app_nil_r.
  - simpl in W. apply andb_prop in W as [W1 W2].
    unfold Meth.bind at 1, Meth.eval at 1. rewrite H2.
    unfold Meth.bind at 1. rewrite update_metrics_ok by assumption.
    rewrite (IH _ _ l') by assumption. now rewrite <- app_assoc.
Qed.

Lemma transactions_apply_sales sales : forall self,
  transactions (apply_sales self sales) = transactions self.
Proof. induction sales as [|s sales IH]; simpl; intros; [|rewrite IH]; reflexivity. Qed.

(** The analysers [get_transactions] produces from the initial one. *)
Definition ingested (lines : list string) (self : MonieshopAnalyser) : Prop :=
  get_transactions lines MonieshopAnalyser_init = (OK tt, self).

Lemma ingested_inv lines self :
  ingested lines self ->
  exists sales,
    Forall2 (fun line sale => parse line = OK sale) lines sales
    /\ forallb well_formed sales = true
    /\ transactions self = sales
    /\ self = set_transactions sales (apply_sales MonieshopAnalyser_init sales).
Proof.
  unfold ingested, get_transactions, Meth.bind, Meth.assign.
  destruct (read_lines lines [] MonieshopAnalyser_init) as [[sales'|e] st] eqn:R;
    [|discriminate].
  apply read_lines_inv in R as (sales & F & W & -> & ->).
  intros E. inversion E; subst. exists sales. simpl. auto.
Qed.

Lemma parse_valid line sale :
  parse line = OK sale -> valid_datetime (timestamp sale) = true.
Proof.
  unfold parse, Sale_init, index, format_timestamp.
  destruct (split "," (strip line)) as [|r0 [|r1 [|r2 [|r3 rest]]]]; simpl;
    try discriminate;
    destruct (fromisoformat r1) eqn:T; simpl; try discriminate;
    destruct (format_products r2); simpl; try discriminate.
  intros E. inversion E; subst; simpl. eapply fromisoformat_valid; eauto.
Qed.

Lemma parsed_valid lines sales :
  Forall2 (fun line sale => parse line = OK sale) lines sales ->
  Forall (fun sale => valid_datetime (timestamp sale) = true) sales.
Proof. induction 1; constructor; eauto using parse_valid. Qed.
End Runs.

(* ================================================================== *)
(** * Invariants of the five dictionaries *)

Section DictItems.
Context {K V : Type} `{EqDec K}.

Lemma setitem_absent (d : dict K V) k v :
  dict_lookup d k = None -> dict_setitem d k v = (d ++ [(k, v)])%list.
Proof.
  induction d as [|[k1 v1] d IH]; simpl; auto.
  destruct (eqb k1 k); [discriminate|]. intros E. now rewrite IH.
Qed.

Lemma Forall_setitem (P : K * V -> Prop) (d : dict K V) k v :
  Forall P (items d) -> P (k, v) -> Forall P (items (dict_setitem d k v)).
Proof.
  unfold items. induction d as [|[k1 v1] d IH]; simpl; intros F Pk.
  - constructor; auto.
  - inversion F; subst. destruct (eqb_spec k1 k); constructor; auto.
    now subst.
Qed.

Lemma lookup_Forall (P : K * V -> Prop) (d : dict K V) k v :
  Forall P (items d) -> dict_lookup d k = Some v -> P (k, v).
Proof.
  intros F E. apply lookup_In in E. rewrite Forall_forall in F. auto.
Qed.


End DictItems.

Section Consistency.
Context `{Builtins}.

(** What holds of the dictionaries after any number of accepted sales:
    one entry per key; a month has a non-empty dictionary of staff, and
    its key renders a date in range; an hour has a non-empty list. *)
Record consistent (self : MonieshopAnalyser) : Prop := {
  c_daily_volume : NoDup (keys (daily_volume self));
  c_daily_value : NoDup (keys (daily_value self));
  c_product_volume : NoDup (keys (product_volume self));
  c_monthly : NoDup (keys (monthly_staff_sales self));
  c_monthly_inner :
    Forall (fun e : string * dict string Z =>
              NoDup (keys (snd e)) /\ snd e <> []
              /\ exists dt, valid_datetime dt = true /\ fst e = strftime_Ym dt)
           (items (monthly_staff_sales self));
  c_hourly : NoDup (keys (hourly_volumes self));
  c_hourly_nonempty :
    Forall (fun e : Z * list Z => snd e <> [] /\ 0 <= fst e <= 23)
           (items (hourly_volumes self))
}.

Lemma consistent_init : consistent MonieshopAnalyser_init.
Proof. split; simpl; constructor. Qed.

Lemma setitem_nonempty {K V} `{EqDec K} (d : dict K V) k v :
  dict_setitem d k v <> [].
Proof. destruct d as [|[k1 v1] d]; simpl; [|destruct (eqb k1 k)]; discriminate. Qed.

Lemma NoDup_keys_fold_add (ps : list product) : forall pv : dict string Z,
  NoDup (keys pv) ->
  NoDup (keys (fold_left (fun pv p => add_to pv (product_id p) (qty p)) ps pv)).
Proof.
  induction ps as [|p ps IH]; simpl; intros pv N; auto.
  apply IH. now apply NoDup_keys_setitem.
Qed.

Lemma valid_hour dt : valid_datetime dt = true -> 0 <= hour dt <= 23.
Proof.
  unfold valid_datetime, between. rewrite !andb_true_iff, !Z.leb_le. tauto.
Qed.

Lemma consistent_apply_sale self sale :
  consistent self -> valid_datetime (timestamp sale) = true ->
  consistent (apply_sale self sale).
Proof.
  intros [C1 C2 C3 C4 C5 C6 C7] Vd. split; simpl.
  - now apply NoDup_keys_setitem.
  - now apply NoDup_keys_setitem.
  - now apply NoDup_keys_fold_add.
  - now apply NoDup_keys_setitem.
  - apply Forall_setitem; auto. simpl. split; [|split].
    + apply NoDup_keys_setitem. unfold dict_get.
      destruct (dict_lookup (monthly_staff_sales self) (strftime_Ym (timestamp sale))) eqn:E.
      * now apply (lookup_Forall _ C5 E).
      * constructor.
    + apply setitem_nonempty.
    + eauto.
  - now apply NoDup_keys_setitem.
  - apply Forall_setitem; auto. simpl. split.
    + now destruct (dict_get (hourly_volumes self) (hour (timestamp sale)) []).
    + now apply valid_hour.
Qed.

Lemma consistent_apply_sales sales : forall self,
  consistent self ->
  Forall (fun sale => valid_datetime (timestamp sale) = true) sales ->
  consistent (apply_sales self sales).
Proof.
  induction sales as [|s sales IH]; simpl; intros self C F; auto.
  inversion F; subst. apply IH; auto using consistent_apply_sale.
Qed.

Lemma consistent_set_transactions self l :
  consistent self -> consistent (set_transactions l self).
Proof. intros [C1 C2 C3 C4 C5 C6 C7]. split; assumption. Qed.

Lemma ingested_consistent lines self : ingested lines self -> consistent self.
Proof.
  intros I. apply ingested_inv in I as (sales & F & W & T & ->).
  apply consistent_set_transactions, consistent_apply_sales.
  - apply consistent_init.
  - eapply parsed_valid; eauto.
Qed.
End Consistency.

(* ================================================================== *)
(** * The loops of [print_metrics] *)

Section FoldDict.
Context {K V W : Type} `{EqDec K}.
Variable f : V -> outcome W.

(** [for k, v in d.items(): acc[k] = f(v)] *)
Definition fill (acc : dict K W) (e : K * V) : outcome (dict K W) :=
  let '(k, v) := e in (w <- f v ;; OK (dict_setitem acc k w))%py.

Lemma foldM_fill_ok (d : dict K V) : forall acc r,
  NoDup (keys acc ++ keys d) ->
  foldM fill d acc = OK r ->
  exists r', r = (acc ++ r')%list
             /\ Forall2 (fun e e' => fst e = fst e' /\ f (snd e) = OK (snd e')) d r'.
Proof.
  induction d as [|[k v] d IH]; simpl; intros acc r N E.
  - inversion E; subst. exists []. rewrite app_nil_r. split; auto.
  - destruct (f v) as [w|e] eqn:F; simpl in E; [|discriminate].
    assert (A : dict_lookup acc k = None).
    { apply lookup_None_keys. intros I.
      apply NoDup_remove_2 in N. apply N, in_or_app. auto. }
    rewrite setitem_absent in E by assumption.
    apply IH in E as (r' & -> & F2).
    + exists ((k, w) :: r'). rewrite <- app_assoc. split; auto.
    + unfold keys in *. rewrite map_app, <- app_assoc. exact N.
Qed.

Lemma foldM_fill_raises (d : dict K V) : forall acc e,
  foldM fill d acc = Raise e -> exists k v, In (k, v) d /\ f v = Raise e.
Proof.
  induction d as [|[k v] d IH]; simpl; intros acc e E; [discriminate|].
  destruct (f v) as [w|e'] eqn:F; simpl in E.
  - apply IH in E as (k' & v' & I & R). eauto.
  - inversion E; subst. eauto.
Qed.
End FoldDict.

Lemma Forall2_In_l {A B} (R : A -> B -> Prop) l l' a :
  Forall2 R l l' -> In a l -> exists b, In b l' /\ R a b.
Proof.
  induction 1; simpl; [tauto|].
  intros [<-|I]; eauto. destruct (IHForall2 I) as (b & ? & ?). eauto.
Qed.

Lemma Forall2_In_r {A B} (R : A -> B -> Prop) l l' b :
  Forall2 R l l' -> In b l' -> exists a, In a l /\ R a b.
Proof.
  induction 1; simpl; [tauto|].
  intros [<-|I]; eauto. destruct (IHForall2 I) as (a & ? & ?). eauto.
Qed.


Definition top_of (staff : dict string Z) : outcome (string * Z) :=
  max_by Z.gtb snd (items staff).

Definition average (volumes : list Z) : outcome float :=
  int_truediv (sum volumes) (len volumes).

Section PrintMetrics.
Context `{Builtins}.

Lemma print_metrics_unfold self :
  fst (print_metrics self) =
  (highest_volume_day <- max_by Z.gtb snd (items (daily_volume self)) ;;
   highest_value_day <- max_by float_gt snd (items (daily_value self)) ;;
   most_sold_product <- max_by Z.gtb snd (items (product_volume self)) ;;
   monthly_top_staff <-
     foldM (fill top_of) (items (monthly_staff_sales self)) dict_new ;;
   avg_hourly_volume <-
     foldM (fill average) (items (hourly_volumes self)) dict_new ;;
   peak_hour <- max_by float_gt snd (items avg_hourly_volume) ;;
   OK {| highest_volume_day := highest_volume_day;
         highest_value_day := highest_value_day;
         most_sold_product := most_sold_product;
         monthly_top_staff := monthly_top_staff;
         staff_lines := sorted_by String.ltb fst (items monthly_top_staff);
         peak_hour := peak_hour |})%py.
Proof.
  unfold print_metrics, Meth.bind, Meth.eval, Meth.ret.
  destruct (max_by Z.gtb snd (items (daily_volume self))); simpl; auto.
  destruct (max_by float_gt snd (items (daily_value self))); simpl; auto.
  destruct (max_by Z.gtb snd (items (product_volume self))); simpl; auto.
  change (fun (monthly_top_staff : dict string (string * Z))
              '(month, staff) =>
            (top <- max_by Z.gtb snd (items staff) ;;
             OK (dict_setitem monthly_top_staff month top))%py)
    with (fill (K:=string) top_of).
  destruct (foldM (fill top_of) (items (monthly_staff_sales self)) dict_new);
    simpl; auto.
  change (fun (avg_hourly_volume : dict Z float) '(hour, volumes) =>
            (avg <- int_truediv (sum volumes) (len volumes) ;;
             OK (dict_setitem avg_hourly_volume hour avg))%py)
    with (fill (K:=Z) average).
  destruct (foldM (fill average) (items (hourly_volumes self)) dict_new)
    as [avg|]; simpl; auto.
  destruct (max_by float_gt snd (items avg)); reflexivity.
Qed.
End PrintMetrics.

(* ================================================================== *)
(** * Non-empty aggregates *)

Lemma split_nonempty sep s : split sep s <> [].
Proof.
  destruct s as [|c s]; simpl; [discriminate|].
  destruct (Ascii.eqb c sep); [discriminate|].
  destruct (split sep s); discriminate.
Qed.

Lemma int_truediv_raises a b e :
  int_truediv a b = Raise e ->
  (b = 0 /\ e = ZeroDivisionError) \/ (b <> 0 /\ e = OverflowError).
Proof.
  unfold int_truediv. destruct (Z.eqb_spec b 0).
  - intros E. inversion E. auto.
  - destruct (SFdiv prec emax (Z2SF a) (Z2SF b)); intros E; inversion E. auto.
Qed.

(** ** Quotients within the floats *)

Unset Implicit Arguments.

Lemma digits2_pos_size p : digits2_pos p = Pos.size p.
Proof. induction p; simpl; congruence. Qed.

Lemma Zdigits2_nonneg m : 0 <= Zdigits2 m.
Proof. destruct m; simpl; lia. Qed.

Lemma Zdigits2_gt m : 0 <= m -> m < 2 ^ Zdigits2 m.
Proof.
  destruct m as [|p|p]; simpl; intros R; try lia.
  rewrite digits2_pos_size. pose proof (Pos.size_gt p) as G.
  assert (Z : Z.pos p < Z.pos (2 ^ Pos.size p)) by lia.
  now rewrite Pos2Z.inj_pow in Z.
Qed.

Lemma Zdigits2_le m k : 0 <= k -> 0 <= m < 2 ^ k -> Zdigits2 m <= k.
Proof.
  destruct m as [|p|p]; simpl; intros K R; try lia.
  rewrite digits2_pos_size. pose proof (Pos.size_le p) as L.
  destruct (Z.le_gt_cases (Zpos (Pos.size p)) k) as [|G]; [assumption|exfalso].
  assert (P : 2 ^ (k + 1) <= 2 ^ Zpos (Pos.size p)) by (apply Z.pow_le_mono_r; lia).
  rewrite Z.pow_add_r, Z.pow_1_r in P by lia.
  assert (Q : Z.pos (2 ^ Pos.size p) <= 2 * Zpos p) by lia.
  rewrite Pos2Z.inj_pow in Q. lia.
Qed.

Lemma shr_m_shr_1 mrs : 0 <= shr_m mrs -> shr_m (shr_1 mrs) = shr_m mrs / 2.
Proof.
  destruct mrs as [m r s]. simpl. intros R.
  destruct m as [|[p|p|]|p]; simpl; try lia; try reflexivity.
  - apply Z.div_unique with 1; lia.
  - apply Z.div_unique with 0; lia.
Qed.

Lemma shr_m_iter n : forall mrs,
  0 <= shr_m mrs -> shr_m (iter_pos shr_1 n mrs) = shr_m mrs / 2 ^ Zpos n.
Proof.
  induction n as [n IH|n IH|]; cbn [iter_pos]; intros mrs R.
  - assert (R1 : 0 <= shr_m (shr_1 mrs))
      by (rewrite shr_m_shr_1 by assumption; apply Z.div_pos; lia).
    assert (R2 : 0 <= shr_m (iter_pos shr_1 n (shr_1 mrs)))
      by (rewrite IH by assumption; apply Z.div_pos; lia).
    rewrite IH, IH, shr_m_shr_1 by assumption.
    rewrite !Z.div_div by lia. f_equal.
    replace (Z.pos n~1) with (1 + Z.pos n + Z.pos n) by lia.
    rewrite !Z.pow_add_r by lia. ring.
  - assert (R2 : 0 <= shr_m (iter_pos shr_1 n mrs))
      by (rewrite IH by assumption; apply Z.div_pos; lia).
    rewrite IH, IH by assumption. rewrite Z.div_div by lia. f_equal.
    replace (Z.pos n~0) with (Z.pos n + Z.pos n) by lia.
    rewrite !Z.pow_add_r by lia. ring.
  - rewrite shr_m_shr_1 by assumption. reflexivity.
Qed.

Lemma shr_record_of_loc_m m l : shr_m (shr_record_of_loc m l) = m.
Proof. destruct l as [|[]]; reflexivity. Qed.

(** What [shr_fexp] leaves of a mantissa has at most 53 bits, and the
    exponent it returns is the greater of the exponent it was given and
    the canonical one. *)
Lemma shr_fexp_spec m e l :
  0 <= m ->
  0 <= shr_m (fst (shr_fexp prec emax m e l)) < 2 ^ 53
  /\ snd (shr_fexp prec emax m e l) = Z.max e (fexp prec emax (Zdigits2 m + e)).
Proof.
  intros R. unfold shr_fexp, shr.
  pose proof (Zdigits2_gt m R) as G. pose proof (Zdigits2_nonneg m) as N.
  assert (F : fexp prec emax (Zdigits2 m + e)
              = Z.max (Zdigits2 m + e - 53) (-1074)) by reflexivity.
  destruct (fexp prec emax (Zdigits2 m + e) - e) as [|n|n] eqn:E; cbn [fst snd].
  - rewrite shr_record_of_loc_m. split; [|lia]. split; [lia|].
    eapply Z.lt_le_trans; [exact G|]. apply Z.pow_le_mono_r; lia.
  - rewrite shr_m_iter, shr_record_of_loc_m
      by (rewrite shr_record_of_loc_m; lia).
    split; [|lia]. split; [apply Z.div_pos; lia|].
    apply Z.div_lt_upper_bound; [lia|].
    rewrite <- Z.pow_add_r by lia.
    eapply Z.lt_le_trans; [exact G|]. apply Z.pow_le_mono_r; lia.
  - rewrite shr_record_of_loc_m. split; [|lia]. split; [lia|].
    eapply Z.lt_le_trans; [exact G|]. apply Z.pow_le_mono_r; lia.
Qed.

Lemma round_nearest_even_bounds m l :
  m <= round_nearest_even m l <= m + 1.
Proof.
  unfold round_nearest_even.
  destruct l as [|[]]; try destruct (Z.even m); lia.
Qed.

(** Rounding a mantissa at an exponent whose magnitude is below 2^1023
    gives no infinity. *)
Lemma binary_round_aux_finite s m e l :
  0 <= m -> e <= 970 -> Zdigits2 m + e <= 1023 ->
  forall s', binary_round_aux prec emax s m e l <> S754_infinity s'.
Proof.
  intros R E D s'. unfold binary_round_aux.
  destruct (shr_fexp_spec m e l R) as [[M1 M2] E1].
  destruct (shr_fexp prec emax m e l) as [mrs' e']. cbn [fst snd] in M1, M2, E1.
  pose proof (round_nearest_even_bounds (shr_m mrs') (loc_of_shr_record mrs')) as B.
  set (m2 := round_nearest_even (shr_m mrs') (loc_of_shr_record mrs')) in *.
  assert (R2 : 0 <= m2) by lia.
  destruct (shr_fexp_spec m2 e' loc_Exact R2) as [_ E2].
  destruct (shr_fexp prec emax m2 e' loc_Exact) as [mrs'' e'']. cbn [fst snd] in E2.
  destruct (shr_m mrs''); try discriminate.
  assert (D2 : Zdigits2 m2 <= 54).
  { apply Zdigits2_le; [lia|]. split; [lia|].
    change (2 ^ 54) with (2 * 2 ^ 53). lia. }
  assert (F1 : fexp prec emax (Zdigits2 m + e)
               = Z.max (Zdigits2 m + e - 53) (-1074)) by reflexivity.
  assert (F2 : fexp prec emax (Zdigits2 m2 + e')
               = Z.max (Zdigits2 m2 + e' - 53) (-1074)) by reflexivity.
  assert (L : e'' <= 971) by lia.
  apply Z.leb_le in L. change (emax - prec) with 971. rewrite L. discriminate.
Qed.

(** The quotient of two integers is within the floats when the dividend
    is below 2^1023 in absolute value. *)
Lemma SFdiv_finite a b :
  b <> 0 -> Z.abs a < 2 ^ 1023 ->
  forall s, SFdiv prec emax (Z2SF a) (Z2SF b) <> S754_infinity s.
Proof.
  intros B A s.
  assert (G : forall pa pb sx, Z.pos pa < 2 ^ 1023 ->
            (let '(mz, ez, lz) := SFdiv_core_binary prec emax (Z.pos pa) 0 (Z.pos pb) 0 in
             binary_round_aux prec emax sx mz ez lz) <> S754_infinity s).
  { intros pa pb sx Pa. unfold SFdiv_core_binary.
    set (d1 := Zdigits2 (Z.pos pa)). set (d2 := Zdigits2 (Z.pos pb)).
    assert (D1 : d1 <= 1023) by (apply Zdigits2_le; lia).
    assert (F : fexp prec emax (d1 + 0 - (d2 + 0))
                = Z.max (d1 + 0 - (d2 + 0) - 53) (-1074)) by reflexivity.
    set (e' := Z.min (fexp prec emax (d1 + 0 - (d2 + 0))) (0 - 0)) in *.
    assert (E' : e' <= 0) by lia.
    set (m' := match 0 - 0 - e' with
               | 0 => Z.pos pa
               | Z.pos _ => Z.shiftl (Z.pos pa) (0 - 0 - e')
               | Z.neg _ => 0
               end).
    assert (M' : m' = Z.pos pa * 2 ^ (- e')).
    { unfold m'. replace (0 - 0 - e') with (- e') by lia.
      destruct (- e') as [|p|p] eqn:S; try lia.
      now rewrite Z.shiftl_mul_pow2 by lia. }
    pose proof (Z_div_mod m' (Z.pos pb) eq_refl) as Q.
    destruct (Z.div_eucl m' (Z.pos pb)) as [q r].
    destruct Q as [Q1 Q2].
    assert (P2 : 0 < 2 ^ (- e')) by (apply Z.pow_pos_nonneg; lia).
    assert (Q0 : 0 <= q) by nia.
    assert (Qm : q <= m') by nia.
    apply binary_round_aux_finite; [exact Q0 | lia |].
    assert (Dq : Zdigits2 q <= d1 - e').
    { pose proof (Zdigits2_nonneg (Z.pos pa)).
      apply Zdigits2_le; [unfold d1; lia|]. split; [exact Q0|].
      eapply Z.le_lt_trans; [exact Qm|]. rewrite M'.
      replace (d1 - e') with (d1 + - e') by lia.
      rewrite Z.pow_add_r by (unfold d1; lia).
      apply Z.mul_lt_mono_pos_r; [exact P2|].
      apply Zdigits2_gt. lia. }
    lia. }
  destruct a as [|pa|pa], b as [|pb|pb]; simpl; try congruence; try discriminate;
    apply G; lia.
Qed.

Lemma int_truediv_ok a b :
  b <> 0 -> Z.abs a < 2 ^ 1023 -> is_ok (int_truediv a b) = true.
Proof.
  intros B A. unfold int_truediv.
  destruct (Z.eqb_spec b 0) as [|_]; [contradiction|].
  pose proof (SFdiv_finite a b B A) as F.
  destruct (SFdiv prec emax (Z2SF a) (Z2SF b)) as [| s | |]; try reflexivity.
  now elim (F s).
Qed.

Set Implicit Arguments.

Lemma len_nonempty {A} (l : list A) : l <> [] -> len l <> 0.
Proof. destruct l; [congruence|]. unfold len. simpl. lia. Qed.

Section NonEmpty.
Context `{Builtins}.

Lemma format_products_length blob ps :
  format_products blob = OK ps ->
  List.length ps = List.length (split "|" (slice_1_m1 blob)).
Proof.
  unfold format_products.
  assert (G : forall toks acc ps,
             foldM (fun formatted_products product =>
                      (p <- unpack_product product ;;
                       OK (formatted_products ++ [p])%list)%py) toks acc = OK ps ->
             List.length ps = (List.length acc + List.length toks)%nat).
  { induction toks as [|tok toks IH]; simpl; intros acc ps' E.
    - inversion E. lia.
    - destruct (unpack_product tok); simpl in E; [|discriminate].
      apply IH in E. rewrite E, length_app. simpl. lia. }
  intros E. apply G in E. exact E.
Qed.

Lemma parse_products_nonempty line sale :
  parse line = OK sale -> products sale <> [].
Proof.
  unfold parse, Sale_init, index, format_timestamp.
  destruct (split "," (strip line)) as [|r0 [|r1 [|r2 [|r3 rest]]]]; simpl;
    try discriminate;
    destruct (fromisoformat r1) eqn:T; simpl; try discriminate;
    destruct (format_products r2) as [ps|] eqn:P; simpl; try discriminate.
  intros E. inversion E; subst; simpl.
  apply format_products_length in P.
  pose proof (split_nonempty "|" (slice_1_m1 r2)) as N.
  destruct ps; [|discriminate].
  destruct (split "|" (slice_1_m1 r2)); [congruence|discriminate].
Qed.

Lemma fold_add_nonempty (ps : list product) : forall pv : dict string Z,
  pv <> [] \/ ps <> [] ->
  fold_left (fun pv p => add_to pv (product_id p) (qty p)) ps pv <> [].
Proof.
  induction ps as [|p ps IH]; simpl; intros pv [N|N]; try congruence.
  - apply IH. left. apply setitem_nonempty.
  - apply IH. left. apply setitem_nonempty.
Qed.

Lemma apply_sales_snoc self sales sale :
  apply_sales self (sales ++ [sale]) = apply_sale (apply_sales self sales) sale.
Proof. unfold apply_sales. now rewrite fold_left_app. Qed.

(** After at least one sale, every aggregate has an entry. *)
Lemma apply_sales_nonempty self sales :
  sales <> [] -> Forall (fun sale => products sale <> []) sales ->
  let self' := apply_sales self sales in
  daily_volume self' <> [] /\ daily_value self' <> []
  /\ product_volume self' <> [] /\ monthly_staff_sales self' <> []
  /\ hourly_volumes self' <> [].
Proof.
  destruct sales as [|s0 sales] using rev_ind; [congruence|].
  intros _ F. apply Forall_app in F as [_ F]. inversion F; subst.
  rewrite apply_sales_snoc. simpl.
  repeat split; try apply setitem_nonempty.
  apply fold_add_nonempty. auto.
Qed.
End NonEmpty.

(* ================================================================== *)
(** * The peak hour *)

Section PeakHour.
Context `{Builtins}.

(** C6. After any ingestion, every hour in [hourly_volumes] is an hour of
    the day with a non-empty list of volumes, so that the computation of
    the report never raises [ZeroDivisionError]. With at least one line,
    and every hour's average [sum(volumes)/len(volumes)] a float, the
    results are computed; this is so when the total of every hour is below
    2^1023 in absolute value. The computation fails only without any line
    ([ValueError]) or at an hour whose average overflows the floats
    ([OverflowError]). In the results the peak hour is an hour of
    [hourly_volumes] paired with its average, and no hour has a greater
    average. *)
Theorem peak_hour_is_max_average (lines : list string) (self : MonieshopAnalyser) :
  ingested lines self ->
  (forall h volumes,
      dict_lookup (hourly_volumes self) h = Some volumes ->
      volumes <> [] /\ len volumes <> 0 /\ 0 <= h <= 23)
  /\ fst (print_metrics self) <> Raise ZeroDivisionError
  /\ (lines <> [] ->
      (forall h volumes,
          dict_lookup (hourly_volumes self) h = Some volumes ->
          is_ok (int_truediv (sum volumes) (len volumes)) = true) ->
      exists m, fst (print_metrics self) = OK m)
  /\ (lines <> [] ->
      (forall h volumes,
          dict_lookup (hourly_volumes self) h = Some volumes ->
          Z.abs (sum volumes) < 2 ^ 1023) ->
      exists m, fst (print_metrics self) = OK m)
  /\ (forall x,
      fst (print_metrics self) = Raise x ->
      (lines = [] /\ x = ValueError)
      \/ (x = OverflowError
          /\ exists h volumes,
               dict_lookup (hourly_volumes self) h = Some volumes
               /\ int_truediv (sum volumes) (len volumes) = Raise OverflowError))
  /\ (forall m,
      fst (print_metrics self) = OK m ->
      exists volumes,
        dict_lookup (hourly_volumes self) (fst (peak_hour m)) = Some volumes
        /\ int_truediv (sum volumes) (len volumes) = OK (snd (peak_hour m))
        /\ forall h' volumes',
            dict_lookup (hourly_volumes self) h' = Some volumes' ->
            exists avg',
              int_truediv (sum volumes') (len volumes') = OK avg'
              /\ float_gt avg' (snd (peak_hour m)) = false).
Proof.
  intros I. pose proof (ingested_consistent I) as C.
  assert (NE : forall h volumes,
             dict_lookup (hourly_volumes self) h = Some volumes ->
             volumes <> [] /\ len volumes <> 0 /\ 0 <= h <= 23).
  { intros h vols E.
    destruct (lookup_Forall _ (c_hourly_nonempty C) E) as [N R]. simpl in *.
    auto using len_nonempty. }
  assert (AV : forall e, In e (items (hourly_volumes self)) ->
                         forall x, average (snd e) = Raise x -> x = OverflowError).
  { intros [h vols] Hin x R. simpl in R.
    apply In_lookup in Hin; [|apply (c_hourly C)].
    apply NE in Hin as (_ & L & _).
    apply int_truediv_raises in R as [[Z _]|[_ ->]]; [contradiction|reflexivity]. }
  assert (TOP : forall e, In e (items (monthly_staff_sales self)) ->
                          is_ok (top_of (snd e)) = true).
  { intros e Hin. pose proof (c_monthly_inner C) as F.
    rewrite Forall_forall in F. destruct (F e Hin) as (_ & N & _).
    now apply max_by_ok_iff. }
  assert (FILLED : lines <> [] ->
                   daily_volume self <> [] /\ daily_value self <> []
                   /\ product_volume self <> [] /\ hourly_volumes self <> []).
  { intros NL. apply ingested_inv in I as (sales & F & W & T & ->).
    destruct (apply_sales_nonempty MonieshopAnalyser_init (sales:=sales))
      as (N1 & N2 & N3 & N4 & N5).
    - destruct F; [congruence|discriminate].
    - clear -F. induction F; constructor; eauto using parse_products_nonempty.
    - simpl. auto. }
  split; [exact NE|].
  assert (RAISE : forall x,
             fst (print_metrics self) = Raise x ->
             (x = OverflowError
              /\ exists h volumes,
                   dict_lookup (hourly_volumes self) h = Some volumes
                   /\ int_truediv (sum volumes) (len volumes)
                      = Raise OverflowError)
             \/ (x = ValueError /\
                 (daily_volume self = [] \/ daily_value self = []
                  \/ product_volume self = []
                  \/ hourly_volumes self = []))).
  { intros x. rewrite print_metrics_unfold.
    destruct (max_by Z.gtb snd (items (daily_volume self))) eqn:E1; simpl;
      [|apply max_by_raises in E1 as [E1 ->]; intros E; inversion E;
        unfold items in *; tauto].
    destruct (max_by float_gt snd (items (daily_value self))) eqn:E2; simpl;
      [|apply max_by_raises in E2 as [E2 ->]; intros E; inversion E;
        unfold items in *; tauto].
    destruct (max_by Z.gtb snd (items (product_volume self))) eqn:E3; simpl;
      [|apply max_by_raises in E3 as [E3 ->]; intros E; inversion E;
        unfold items in *; tauto].
    destruct (foldM (fill top_of) (items (monthly_staff_sales self)) dict_new)
      as [tops|e4] eqn:E4; simpl.
    2:{ apply foldM_fill_raises in E4 as (k & v & Hin & R).
        apply TOP in Hin. simpl in Hin. rewrite R in Hin. discriminate. }
    destruct (foldM (fill average) (items (hourly_volumes self)) dict_new)
      as [avgs|e5] eqn:E5; simpl.
    2:{ apply foldM_fill_raises in E5 as (k & v & Hin & R).
        intros E; inversion E; subst. left.
        pose proof (AV (k, v) Hin _ R) as ->. split; [reflexivity|].
        exists k, v. split; [|exact R].
        apply In_lookup; [apply (c_hourly C) | exact Hin]. }
    destruct (max_by float_gt snd (items avgs)) eqn:E6; simpl; [discriminate|].
    apply max_by_raises in E6 as [E6 ->]. unfold items in E6. subst avgs.
    intros E; inversion E; subst. right. split; [reflexivity|].
    apply foldM_fill_ok in E5 as (r' & E5 & F2).
    - simpl in E5. subst r'. unfold items in F2.
      destruct (hourly_volumes self); [auto | inversion F2].
    - exact (c_hourly C). }
  assert (COMPUTED : lines <> [] ->
                     (forall h volumes,
                         dict_lookup (hourly_volumes self) h = Some volumes ->
                         is_ok (int_truediv (sum volumes) (len volumes)) = true) ->
                     exists m, fst (print_metrics self) = OK m).
  { intros NL AVG.
    destruct (fst (print_metrics self)) as [m|x] eqn:P; [now exists m|].
    exfalso. destruct (RAISE x eq_refl) as [(_ & h & vols & L & R)|[_ E]].
    - apply AVG in L. rewrite R in L. discriminate.
    - apply FILLED in NL. tauto. }
  split; [|split; [exact COMPUTED|split; [|split]]].
  - intros Z. apply RAISE in Z as [[Z _]|[Z _]]; discriminate.
  - intros NL BOUND. apply COMPUTED; [exact NL|].
    intros h vols L. apply int_truediv_ok; [|exact (BOUND h vols L)].
    now apply NE in L.
  - intros x P. destruct (RAISE x P) as [O|[-> E]]; [now right|].
    left. split; [|reflexivity].
    destruct lines as [|line lines]; [reflexivity|].
    exfalso. assert (NL : line :: lines <> []) by discriminate.
    apply FILLED in NL. tauto.
  - intros m P. rewrite print_metrics_unfold in P.
    destruct (max_by Z.gtb snd (items (daily_volume self))); simpl in P;
      [|discriminate].
    destruct (max_by float_gt snd (items (daily_value self))); simpl in P;
      [|discriminate].
    destruct (max_by Z.gtb snd (items (product_volume self))); simpl in P;
      [|discriminate].
    destruct (foldM (fill top_of) (items (monthly_staff_sales self)) dict_new);
      simpl in P; [|discriminate].
    destruct (foldM (fill average) (items (hourly_volumes self)) dict_new)
      as [avgs|] eqn:E5; simpl in P; [|discriminate].
    destruct (max_by float_gt snd (items avgs)) as [peak|] eqn:E6; simpl in P;
      [|discriminate].
    inversion P; subst; simpl. clear P.
    apply foldM_fill_ok in E5 as (r' & E5 & F2); [|exact (c_hourly C)].
    simpl in E5. subst r'.
    apply (@max_by_spec _ _ float_gt snd float_gt_trans float_gt_irrefl)
      in E6 as [Hin Hmax].
    destruct (Forall2_In_r _ F2 Hin) as ([h vols] & Hin' & Eh & Ea).
    simpl in *. exists vols. split; [|split].
    + rewrite <- Eh. apply In_lookup; [apply (c_hourly C) | exact Hin'].
    + exact Ea.
    + intros h' vols' L. apply lookup_In in L.
      destruct (Forall2_In_l _ F2 L) as ([h2 avg2] & Hin2 & Eh2 & Ea2).
      simpl in *. exists avg2. split; auto. apply (Hmax _ Hin2).
Qed.
End PeakHour.

(* ================================================================== *)
(** * [sorted] sorts *)

Section SortedFacts.
Context {A B : Type}.
Variable lt : B -> B -> bool.
Variable key : A -> B.
Hypothesis lt_trans :
  forall a b c, lt a b = true -> lt b c = true -> lt a c = true.
Hypothesis lt_total : forall a b, lt a b = false -> a <> b -> lt b a = true.





End SortedFacts.

(** ** The order of strings *)




(* ================================================================== *)
(** * Month keys follow the calendar *)


Lemma valid_year_month dt :
  valid_datetime dt = true -> 1 <= year dt <= 9999 /\ 1 <= month dt <= 12.
Proof.
  unfold valid_datetime, between. rewrite !andb_true_iff, !Z.leb_le. tauto.
Qed.










(* ================================================================== *)
(** * The top staff of each month *)


Section TopStaff.
Context `{Builtins}.


End TopStaff.

(* ================================================================== *)
(** * Dictionaries up to the order of their keys *)

(** Two optional values are both absent, or both present and related. *)
Definition opt_rel {A} (R : A -> A -> Prop) (o1 o2 : option A) : Prop :=
  match o1, o2 with
  | Some a, Some b => R a b
  | None, None => True
  | _, _ => False
  end.

(** Two dictionaries have the same keys, with related values: what [==]
    compares on dictionaries, their insertion orders left aside. *)
Definition dict_rel {K V} `{EqDec K} (R : V -> V -> Prop) (d1 d2 : dict K V) : Prop :=
  forall k, opt_rel R (dict_lookup d1 k) (dict_lookup d2 k).

(** [d[k] = f(d.get(k, default))] *)
Definition upd {K V} `{EqDec K} (d : dict K V) (k : K) (default : V) (f : V -> V)
  : dict K V :=
  dict_setitem d k (f (dict_get d k default)).

Section DictRel.
Context {K V : Type} `{EqDec K}.
Variable R : V -> V -> Prop.

Lemma dict_rel_refl : (forall v, R v v) -> forall d : dict K V, dict_rel R d d.
Proof. intros Rr d k. unfold opt_rel. destruct (dict_lookup d k); auto. Qed.

Lemma dict_rel_trans :
  (forall a b c, R a b -> R b c -> R a c) ->
  forall d1 d2 d3 : dict K V,
    dict_rel R d1 d2 -> dict_rel R d2 d3 -> dict_rel R d1 d3.
Proof.
  intros Rt d1 d2 d3 A B k. specialize (A k). specialize (B k).
  unfold opt_rel in *.
  destruct (dict_lookup d1 k), (dict_lookup d2 k), (dict_lookup d3 k);
    eauto; contradiction.
Qed.

Lemma dict_rel_get (d1 d2 : dict K V) k def1 def2 :
  dict_rel R d1 d2 -> R def1 def2 ->
  R (dict_get d1 k def1) (dict_get d2 k def2).
Proof.
  intros A D. specialize (A k). unfold dict_get, opt_rel in *.
  destruct (dict_lookup d1 k), (dict_lookup d2 k); auto; contradiction.
Qed.

Lemma dict_rel_setitem (d1 d2 : dict K V) k v1 v2 :
  dict_rel R d1 d2 -> R v1 v2 ->
  dict_rel R (dict_setitem d1 k v1) (dict_setitem d2 k v2).
Proof.
  intros A E k'. rewrite !lookup_setitem.
  destruct (eqb k k'); [exact E | apply A].
Qed.

Lemma lookup_upd (d : dict K V) k def f k' :
  dict_lookup (upd d k def f) k' =
  if eqb k k' then Some (f (dict_get d k def)) else dict_lookup d k'.
Proof. apply lookup_setitem. Qed.

Lemma get_upd_eq (d : dict K V) k def f :
  dict_get (upd d k def f) k def = f (dict_get d k def).
Proof. unfold dict_get at 1. now rewrite lookup_upd, eqb_refl. Qed.

Lemma get_upd_neq (d : dict K V) k k' def f :
  k <> k' -> dict_get (upd d k def f) k' def = dict_get d k' def.
Proof. intros N. unfold dict_get. now rewrite lookup_upd, eqb_neq. Qed.

Lemma dict_rel_upd (d1 d2 : dict K V) k def f1 f2 :
  dict_rel R d1 d2 -> R def def ->
  (forall a b, R a b -> R (f1 a) (f2 b)) ->
  dict_rel R (upd d1 k def f1) (upd d2 k def f2).
Proof.
  intros A D F. apply dict_rel_setitem; auto. apply F, dict_rel_get; auto.
Qed.

(** Two updates commute when their functions do. *)
Lemma upd_swap (d : dict K V) k1 k2 def f1 f2 :
  (forall v, R v v) ->
  (forall v, R (f2 (f1 v)) (f1 (f2 v))) ->
  dict_rel R (upd (upd d k1 def f1) k2 def f2) (upd (upd d k2 def f2) k1 def f1).
Proof.
  intros Rr C k. rewrite !lookup_upd.
  destruct (eqb_spec k1 k2) as [->|N].
  - rewrite !get_upd_eq. destruct (eqb k2 k); simpl; auto.
    destruct (dict_lookup d k); simpl; auto.
  - rewrite !get_upd_neq by congruence.
    destruct (eqb_spec k2 k) as [->|N2]; destruct (eqb_spec k1 k) as [->|N1];
      simpl; auto; try congruence.
    destruct (dict_lookup d k); simpl; auto.
Qed.
End DictRel.

(* ================================================================== *)
(** * The order of the sales *)

Lemma fold_add_perm l1 l2 :
  Permutation l1 l2 -> forall a, fold_left Z.add l1 a = fold_left Z.add l2 a.
Proof.
  induction 1; simpl; intros a; auto.
  - f_equal. lia.
  - now rewrite IHPermutation1.
Qed.

Lemma sum_perm l1 l2 : Permutation l1 l2 -> sum l1 = sum l2.
Proof. intros P. now apply fold_add_perm. Qed.

Lemma average_perm l1 l2 : Permutation l1 l2 -> average l1 = average l2.
Proof.
  intros P. unfold average, len.
  now rewrite (sum_perm P), (Permutation_length P).
Qed.

(** The aggregates of two analysers agree: the same days, products, months
    and staff with the same volumes; the same days with a value; the same
    hours, each with the same volumes up to their order. *)
Record same_aggregates (a b : MonieshopAnalyser) : Prop := {
  same_daily_volume : dict_rel eq (daily_volume a) (daily_volume b);
  same_daily_value_days :
    dict_rel (fun _ _ => True) (daily_value a) (daily_value b);
  same_product_volume : dict_rel eq (product_volume a) (product_volume b);
  same_monthly_staff_sales :
    dict_rel (dict_rel eq) (monthly_staff_sales a) (monthly_staff_sales b);
  same_hourly_volumes :
    dict_rel (@Permutation Z) (hourly_volumes a) (hourly_volumes b)
}.

Section OrderIndependence.
Context `{Builtins}.

(** The units of product [k] in a list of products, and whether it occurs. *)
Fixpoint total (k : string) (ps : list product) : Z :=
  match ps with
  | [] => 0
  | p :: r => (if eqb (product_id p) k then qty p else 0) + total k r
  end.

Definition mentions (k : string) (ps : list product) : bool :=
  existsb (fun p => eqb (product_id p) k) ps.

Lemma total_not_mentioned k ps : mentions k ps = false -> total k ps = 0.
Proof.
  unfold mentions. induction ps as [|p ps IH]; cbn [total existsb]; auto.
  destruct (eqb (product_id p) k); cbn [orb]; [discriminate|]. auto.
Qed.

Lemma lookup_fold_add ps : forall (pv : dict string Z) k,
  dict_lookup (fold_left (fun pv p => add_to pv (product_id p) (qty p)) ps pv) k
  = if mentions k ps then Some (dict_get pv k 0 + total k ps)
    else dict_lookup pv k.
Proof.
  induction ps as [|p ps IH]; intros pv k; [reflexivity|].
  cbn [fold_left total]. rewrite IH.
  change (mentions k (p :: ps))
    with (eqb (product_id p) k || mentions k ps).
  change (add_to pv (product_id p) (qty p))
    with (upd pv (product_id p) 0 (fun x => x + qty p)).
  destruct (eqb_spec (product_id p) k) as [->|N]; cbn [orb].
  - rewrite get_upd_eq, lookup_upd, eqb_refl.
    destruct (mentions k ps) eqn:M.
    + f_equal. lia.
    + rewrite (total_not_mentioned _ _ M). f_equal. lia.
  - rewrite get_upd_neq, lookup_upd, eqb_neq by assumption. reflexivity.
Qed.

Lemma same_aggregates_refl a : same_aggregates a a.
Proof.
  split; apply dict_rel_refl; auto.
  intros d. now apply dict_rel_refl.
Qed.

Lemma same_aggregates_trans a b c :
  same_aggregates a b -> same_aggregates b c -> same_aggregates a c.
Proof.
  intros [A1 A2 A3 A4 A5] [B1 B2 B3 B4 B5]. split.
  - eapply dict_rel_trans; eauto. congruence.
  - eapply dict_rel_trans; eauto.
  - eapply dict_rel_trans; eauto. congruence.
  - eapply dict_rel_trans; eauto.
    intros x y z. apply dict_rel_trans. congruence.
  - eapply dict_rel_trans; eauto. apply perm_trans.
Qed.

Lemma dict_rel_eq_get {K} `{EqDec K} (d1 d2 : dict K Z) k :
  dict_rel eq d1 d2 -> dict_get d1 k 0 = dict_get d2 k 0.
Proof. intros A. now apply dict_rel_get. Qed.

(** The same sale applied to agreeing analysers leaves them agreeing. *)
Lemma apply_sale_same a b sale :
  same_aggregates a b -> same_aggregates (apply_sale a sale) (apply_sale b sale).
Proof.
  intros [A1 A2 A3 A4 A5]. split; simpl.
  - apply dict_rel_setitem; auto. now rewrite (dict_rel_eq_get _ A1).
  - apply dict_rel_setitem; auto.
  - intros k. rewrite !lookup_fold_add. destruct (mentions k (products sale)).
    + simpl. now rewrite (dict_rel_eq_get _ A3).
    + apply A3.
  - apply dict_rel_setitem; auto.
    apply dict_rel_setitem.
    + apply dict_rel_get; auto. intros k. exact I.
    + f_equal. apply dict_rel_eq_get. apply dict_rel_get; auto. intros k. exact I.
  - apply dict_rel_setitem; auto.
    apply Permutation_app_tail. apply dict_rel_get; auto.
Qed.

(** Two sales applied in either order leave agreeing analysers. *)
Lemma apply_sale_swap a s1 s2 :
  same_aggregates (apply_sale (apply_sale a s1) s2)
                  (apply_sale (apply_sale a s2) s1).
Proof.
  split; simpl.
  - apply (@upd_swap _ _ _ eq (daily_volume a) _ _ 0
             (fun x => x + volume s1) (fun x => x + volume s2)); auto.
    intros v. lia.
  - apply (@upd_swap _ _ _ (fun _ _ => True) (daily_value a) _ _ 0%float
             (fun x => x + value s1)%float (fun x => x + value s2)%float); auto.
  - intros k. rewrite !lookup_fold_add.
    unfold dict_get. rewrite !lookup_fold_add. unfold dict_get.
    destruct (mentions k (products s1)), (mentions k (products s2)),
             (dict_lookup (product_volume a) k); simpl; auto; lia.
  - apply (@upd_swap _ _ _ (dict_rel eq) (monthly_staff_sales a) _ _ dict_new
             (fun d => upd d (staff s1) 0 (fun x => x + volume s1))
             (fun d => upd d (staff s2) 0 (fun x => x + volume s2))).
    + intros d. now apply dict_rel_refl.
    + intros d. apply upd_swap; auto. intros v. lia.
  - apply (@upd_swap _ _ _ (@Permutation Z) (hourly_volumes a) _ _ []
             (fun l => l ++ [volume s1])%list (fun l => l ++ [volume s2])%list);
      auto.
    intros l. rewrite <- !app_assoc. apply Permutation_app_head. constructor.
Qed.

Lemma apply_sales_same sales : forall a b,
  same_aggregates a b ->
  same_aggregates (apply_sales a sales) (apply_sales b sales).
Proof.
  induction sales as [|s sales IH]; simpl; intros a b S; auto.
  apply IH. now apply apply_sale_same.
Qed.

Lemma apply_sales_perm sales1 sales2 :
  Permutation sales1 sales2 ->
  forall a b, same_aggregates a b ->
              same_aggregates (apply_sales a sales1) (apply_sales b sales2).
Proof.
  induction 1 as [|s l1 l2 P IH|s1 s2 l|l1 l2 l3 P1 IH1 P2 IH2];
    simpl; intros a b S.
  - exact S.
  - apply IH. now apply apply_sale_same.
  - apply apply_sales_same.
    eapply same_aggregates_trans; [apply apply_sale_swap|].
    now apply apply_sale_same, apply_sale_same.
  - eapply same_aggregates_trans; [apply IH1, same_aggregates_refl|].
    now apply IH2.
Qed.
End OrderIndependence.

Section OrderClaim.
Context `{Builtins}.

(** C7 (as the code has it). Folding a sequence of sales that
    [update_metrics] accepts, and folding any permutation of it, both
    succeed, and the final analysers agree on the daily volumes, the
    product volumes and the monthly staff sales (same keys, same numbers)
    and on the days that have a value; each hour has the same volumes up
    to their order, hence the same sum, count and average. The order of
    the keys, the order of the volumes of an hour and the float sums of
    the daily values follow the order of the sales. *)
Theorem update_order_independent (sales1 sales2 : list Sale) (self1 : MonieshopAnalyser) :
  Permutation sales1 sales2 ->
  update_all sales1 MonieshopAnalyser_init = (OK tt, self1) ->
  exists self2,
    update_all sales2 MonieshopAnalyser_init = (OK tt, self2)
    /\ same_aggregates self1 self2
    /\ forall h,
        opt_rel (fun l1 l2 => sum l1 = sum l2 /\ len l1 = len l2
                              /\ average l1 = average l2)
                (dict_lookup (hourly_volumes self1) h)
                (dict_lookup (hourly_volumes self2) h).
Proof.
  intros P U. apply update_all_inv in U as [W ->].
  exists (apply_sales MonieshopAnalyser_init sales2).
  assert (S : same_aggregates (apply_sales MonieshopAnalyser_init sales1)
                              (apply_sales MonieshopAnalyser_init sales2))
    by (apply apply_sales_perm; auto using same_aggregates_refl).
  split; [|split; [exact S|]].
  - apply update_all_ok. rewrite forallb_forall in *.
    intros s I. apply W. eapply Permutation_in; [symmetry|]; eauto.
  - intros h. pose proof (same_hourly_volumes S h) as Q.
    unfold opt_rel in *.
    destruct (dict_lookup (hourly_volumes (apply_sales MonieshopAnalyser_init sales1)) h),
             (dict_lookup (hourly_volumes (apply_sales MonieshopAnalyser_init sales2)) h);
      auto.
    repeat split.
    + now apply sum_perm.
    + unfold len. now rewrite (Permutation_length Q).
    + now apply average_perm.
Qed.
End OrderClaim.

(* ================================================================== *)
(** * Entries stay, volumes grow *)

(** From [a] to [b], every entry of the five dictionaries is still there,
    and [le] relates the old and new volume of a day, of a product and of
    a staff in a month; the volumes of an hour have only been appended to. *)
Record extends (le : Z -> Z -> Prop) (a b : MonieshopAnalyser) : Prop := {
  ext_daily_volume :
    forall d v, dict_lookup (daily_volume a) d = Some v ->
                exists v', dict_lookup (daily_volume b) d = Some v' /\ le v v';
  ext_daily_value :
    forall d, dict_lookup (daily_value a) d <> None ->
              dict_lookup (daily_value b) d <> None;
  ext_product_volume :
    forall p v, dict_lookup (product_volume a) p = Some v ->
                exists v', dict_lookup (product_volume b) p = Some v' /\ le v v';
  ext_monthly_staff_sales :
    forall m staff_sales,
      dict_lookup (monthly_staff_sales a) m = Some staff_sales ->
      exists staff_sales',
        dict_lookup (monthly_staff_sales b) m = Some staff_sales'
        /\ forall s v, dict_lookup staff_sales s = Some v ->
                       exists v', dict_lookup staff_sales' s = Some v' /\ le v v';
  ext_hourly_volumes :
    forall h volumes,
      dict_lookup (hourly_volumes a) h = Some volumes ->
      exists more, dict_lookup (hourly_volumes b) h = Some (volumes ++ more)%list
}.

(** The sale has its entry in each of the five dictionaries. *)
Record recorded (sale : Sale) (self : MonieshopAnalyser) : Prop := {
  rec_daily_volume :
    dict_lookup (daily_volume self) (date_of (timestamp sale)) <> None;
  rec_daily_value :
    dict_lookup (daily_value self) (date_of (timestamp sale)) <> None;
  rec_product_volume :
    forall p, In p (products sale) ->
              dict_lookup (product_volume self) (product_id p) <> None;
  rec_monthly_staff_sales :
    exists staff_sales,
      dict_lookup (monthly_staff_sales self) (strftime_Ym (timestamp sale))
        = Some staff_sales
      /\ dict_lookup staff_sales (staff sale) <> None;
  rec_hourly_volumes :
    dict_lookup (hourly_volumes self) (hour (timestamp sale)) <> None
}.

Section Growth.
Context `{Builtins}.
Variable le : Z -> Z -> Prop.
Hypothesis le_refl : forall v, le v v.
Hypothesis le_trans : forall a b c, le a b -> le b c -> le a c.

Lemma extends_refl a : extends le a a.
Proof.
  split; eauto.
  intros h vols E. exists []. now rewrite app_nil_r.
Qed.

Lemma extends_trans a b c : extends le a b -> extends le b c -> extends le a c.
Proof.
  intros [A1 A2 A3 A4 A5] [B1 B2 B3 B4 B5]. split.
  - intros d v E. apply A1 in E as (v1 & E & L).
    apply B1 in E as (v2 & E & L'). eauto.
  - auto.
  - intros p v E. apply A3 in E as (v1 & E & L).
    apply B3 in E as (v2 & E & L'). eauto.
  - intros m i E. apply A4 in E as (i1 & E & L).
    apply B4 in E as (i2 & E & L'). exists i2. split; auto.
    intros s v Es. apply L in Es as (v1 & Es & Lv).
    apply L' in Es as (v2 & Es & Lv'). eauto.
  - intros h vols E. apply A5 in E as (m1 & E).
    apply B5 in E as (m2 & E). exists (m1 ++ m2)%list. now rewrite app_assoc.
Qed.

Lemma add_to_extends {K} `{EqDec K} (d : dict K Z) k q k' v :
  le (dict_get d k 0) (dict_get d k 0 + q) ->
  dict_lookup d k' = Some v ->
  exists v', dict_lookup (add_to d k q) k' = Some v' /\ le v v'.
Proof.
  intros L E. unfold add_to. rewrite lookup_setitem.
  destruct (eqb_spec k k') as [->|N]; eauto.
  unfold dict_get in *. rewrite E in *. eauto.
Qed.

Lemma fold_add_extends ps : forall (pv : dict string Z) k v,
  (forall p x, In p ps -> le x (x + qty p)) ->
  dict_lookup pv k = Some v ->
  exists v', dict_lookup
               (fold_left (fun pv p => add_to pv (product_id p) (qty p)) ps pv) k
             = Some v' /\ le v v'.
Proof.
  induction ps as [|p ps IH]; simpl; intros pv k v L E; eauto.
  destruct (add_to_extends pv (product_id p) (qty p) k) with (v:=v)
    as (v1 & E1 & L1); auto.
  destruct (IH _ _ _ (fun p x I => L p x (or_intror I)) E1) as (v2 & E2 & L2).
  eauto.
Qed.

Lemma apply_sale_extends self sale :
  (forall x, le x (x + volume sale)) ->
  (forall p x, In p (products sale) -> le x (x + qty p)) ->
  extends le self (apply_sale self sale).
Proof.
  intros Lv Lq. split; simpl.
  - intros d v E. now apply add_to_extends.
  - intros d N. rewrite lookup_setitem.
    destruct (eqb (date_of (timestamp sale)) d); congruence.
  - intros p v E. now apply fold_add_extends.
  - intros m i E. rewrite lookup_setitem.
    destruct (eqb_spec (strftime_Ym (timestamp sale)) m) as [->|N].
    + eexists. split; [reflexivity|].
      unfold dict_get. rewrite E. intros s v Es. now apply add_to_extends.
    + eauto.
  - intros h vols E. rewrite lookup_setitem.
    destruct (eqb_spec (hour (timestamp sale)) h) as [->|N].
    + unfold dict_get. rewrite E. eauto.
    + exists []. now rewrite app_nil_r.
Qed.
End Growth.

Section GrowthClaim.
Context `{Builtins}.

(** Every quantity [int] reads in the sale is at least zero. *)
Definition nonneg_quantities (sale : Sale) : Prop :=
  forall p q, In p (products sale) -> py_int (quantity p) = Some q -> 0 <= q.

Lemma qty_nonneg sale p :
  nonneg_quantities sale -> In p (products sale) -> 0 <= qty p.
Proof.
  intros N I. unfold qty. specialize (N p).
  destruct (py_int (quantity p)); [auto | lia].
Qed.

Lemma fold_add_nonneg l : forall a,
  Forall (fun q => 0 <= q) l -> a <= fold_left Z.add l a.
Proof.
  induction l as [|q l IH]; simpl; intros a F; [lia|].
  inversion F; subst. specialize (IH (a + q) H3). lia.
Qed.

Lemma volume_nonneg sale : nonneg_quantities sale -> 0 <= volume sale.
Proof.
  intros N. unfold volume, sum. apply fold_add_nonneg.
  rewrite Forall_forall. intros q I.
  apply in_map_iff in I as (p & <- & I). now apply qty_nonneg with sale.
Qed.

Lemma apply_sales_extends (le : Z -> Z -> Prop) sales :
  (forall v, le v v) -> (forall a b c, le a b -> le b c -> le a c) ->
  (forall sale, In sale sales ->
                (forall x, le x (x + volume sale))
                /\ forall p x, In p (products sale) -> le x (x + qty p)) ->
  forall self, extends le self (apply_sales self sales).
Proof.
  intros Rr Rt. induction sales as [|s sales IH]; simpl; intros L self.
  - now apply extends_refl.
  - apply extends_trans with (apply_sale self s); auto.
    destruct (L s (or_introl eq_refl)). now apply apply_sale_extends.
Qed.

Lemma recorded_apply_sale self sale : recorded sale (apply_sale self sale).
Proof.
  split; simpl; try (unfold add_to; rewrite lookup_setitem_eq; discriminate).
  - intros p I. rewrite lookup_fold_add.
    assert (M : mentions (product_id p) (products sale) = true).
    { apply existsb_exists. exists p. split; auto. apply eqb_refl. }
    rewrite M. discriminate.
  - eexists. rewrite lookup_setitem_eq. split; [reflexivity|].
    unfold add_to. rewrite lookup_setitem_eq. discriminate.
Qed.

Lemma recorded_extends le sale a b :
  extends le a b -> recorded sale a -> recorded sale b.
Proof.
  intros [E1 E2 E3 E4 E5] [R1 R2 R3 R4 R5]. split.
  - destruct (dict_lookup (daily_volume a) _) eqn:L; [|congruence].
    apply E1 in L as (v' & -> & _). discriminate.
  - auto.
  - intros p I. specialize (R3 p I).
    destruct (dict_lookup (product_volume a) _) eqn:L; [|congruence].
    apply E3 in L as (v' & -> & _). discriminate.
  - destruct R4 as (i & L & Ls). apply E4 in L as (i' & L' & F).
    exists i'. split; auto.
    destruct (dict_lookup i (staff sale)) eqn:Q; [|congruence].
    apply F in Q as (v' & -> & _). discriminate.
  - destruct (dict_lookup (hourly_volumes a) _) eqn:L; [|congruence].
    apply E5 in L as (more & ->). discriminate.
Qed.

Lemma apply_sales_recorded sales : forall self sale,
  In sale sales -> recorded sale (apply_sales self sales).
Proof.
  induction sales as [|s sales IH]; simpl; intros self sale []; subst; auto.
  apply recorded_extends with (fun _ _ => True) (apply_sale self sale).
  - apply apply_sales_extends; auto.
  - apply recorded_apply_sale.
Qed.

(** C10 (as the code has it). The five dictionaries start empty. After
    any run of accepted sales, every entry that was there is still there,
    and each sale of the run has its entry in each of the five. When no
    quantity of the run is negative, no volume of a day, of a product or
    of a staff in a month has decreased, and the volumes of an hour have
    only been appended to. One update replaces the day's value by the
    float sum of it and the amount. *)
Theorem aggregates_keep_and_grow (sales : list Sale) (self self' : MonieshopAnalyser) :
  update_all sales self = (OK tt, self') ->
  (daily_volume MonieshopAnalyser_init = []
   /\ daily_value MonieshopAnalyser_init = []
   /\ product_volume MonieshopAnalyser_init = []
   /\ monthly_staff_sales MonieshopAnalyser_init = []
   /\ hourly_volumes MonieshopAnalyser_init = [])
  /\ extends (fun _ _ => True) self self'
  /\ (forall sale, In sale sales -> recorded sale self')
  /\ ((forall sale, In sale sales -> nonneg_quantities sale) ->
      extends Z.le self self')
  /\ (forall sale a b,
        update_metrics sale a = (OK tt, b) ->
        exists x, py_float (amount sale) = Some x
                  /\ dict_lookup (daily_value b) (date_of (timestamp sale))
                     = Some (dict_get (daily_value a) (date_of (timestamp sale)) 0
                             + x)%float).
Proof.
  intros U. apply update_all_inv in U as [W ->].
  split; [repeat split|]. split; [|split; [|split]].
  - apply apply_sales_extends; auto.
  - intros sale I. now apply apply_sales_recorded.
  - intros N. apply apply_sales_extends.
    + intros v. lia.
    + intros a b c. lia.
    + intros sale I. split.
      * intros x. pose proof (volume_nonneg (N sale I)). lia.
      * intros p x Ip. pose proof (qty_nonneg _ (N sale I) Ip). lia.
  - intros sale a b U.
    destruct (well_formed sale) eqn:Wf.
    + rewrite update_metrics_ok in U by assumption. inversion U; subst.
      unfold well_formed in Wf. apply andb_prop in Wf as [_ Wf].
      simpl. rewrite lookup_setitem_eq. unfold value.
      destruct (py_float (amount sale)); [eauto | discriminate].
    + pose proof (update_metrics_fail sale a Wf) as F.
      rewrite U in F. discriminate.
Qed.
End GrowthClaim.

(* ================================================================== *)
(** * Dictionaries filled by a loop *)

Section Accumulate.
Context {A K V : Type} `{EqDec K}.
Variable kf : A -> K.
Variable default : V.
Variable g : A -> V -> V.

(** [for x in xs: d[kf(x)] = g(x, d.get(kf(x), default))] *)
Definition accumulate (d : dict K V) (xs : list A) : dict K V :=
  fold_left (fun d x => upd d (kf x) default (g x)) xs d.

(** The items of [xs] that go to the key [k], in order. *)
Definition at_key (k : K) (xs : list A) : list A :=
  filter (fun x => eqb (kf x) k) xs.

(** The keys in the order each is first met, after those already [seen]. *)
Definition first_seen (seen : list K) (ks : list K) : list K :=
  fold_left (fun seen k =>
               if existsb (fun k' => eqb k' k) seen then seen
               else (seen ++ [k])%list) ks seen.

Lemma lookup_accumulate xs : forall d k,
  dict_lookup (accumulate d xs) k =
  match at_key k xs with
  | [] => dict_lookup d k
  | sel => Some (fold_left (fun v x => g x v) sel (dict_get d k default))
  end.
Proof.
  induction xs as [|x xs IH]; intros d k; [reflexivity|].
  unfold accumulate, at_key in *. cbn [fold_left filter]. rewrite IH.
  destruct (eqb_spec (kf x) k) as [<-|N].
  - rewrite get_upd_eq, lookup_upd, eqb_refl.
    destruct (filter (fun x0 => eqb (kf x0) (kf x)) xs); reflexivity.
  - rewrite get_upd_neq, lookup_upd, eqb_neq by assumption. reflexivity.
Qed.

Lemma existsb_keys (d : dict K V) k :
  existsb (fun k' => eqb k' k) (keys d) = dict_contains d k.
Proof.
  unfold dict_contains. induction d as [|[k1 v1] d IH]; simpl; auto.
  destruct (eqb k1 k); simpl; auto.
Qed.

Lemma keys_upd (d : dict K V) k f :
  keys (upd d k default f) =
  if existsb (fun k' => eqb k' k) (keys d) then keys d else (keys d ++ [k])%list.
Proof.
  rewrite existsb_keys. unfold dict_contains, upd.
  destruct (dict_lookup d k) eqn:E.
  - apply keys_setitem_present. congruence.
  - now apply keys_setitem_absent.
Qed.

Lemma keys_accumulate xs : forall d,
  keys (accumulate d xs) = first_seen (keys d) (map kf xs).
Proof.
  induction xs as [|x xs IH]; intros d; [reflexivity|].
  unfold accumulate, first_seen in *. cbn [fold_left map].
  now rewrite IH, keys_upd.
Qed.
End Accumulate.

Lemma fold_left_map {A B C} (f : C -> B -> C) (h : A -> B) l : forall c,
  fold_left f (map h l) c = fold_left (fun c x => f c (h x)) l c.
Proof. induction l as [|x l IH]; simpl; intros; auto. Qed.

Lemma fold_add_shift l : forall a, fold_left Z.add l a = a + sum l.
Proof.
  unfold sum. induction l as [|x l IH]; simpl; intros a; [lia|].
  rewrite (IH (a + x)), (IH x). lia.
Qed.

Lemma sum_cons x l : sum (x :: l) = x + sum l.
Proof. unfold sum. simpl. now rewrite fold_add_shift. Qed.

Lemma sum_app l1 l2 : sum (l1 ++ l2) = sum l1 + sum l2.
Proof.
  unfold sum. now rewrite fold_left_app, fold_add_shift.
Qed.

Lemma fold_append_shift {A} (h : A -> Z) l : forall acc,
  fold_left (fun acc x => acc ++ [h x])%list l acc = (acc ++ map h l)%list.
Proof.
  induction l as [|x l IH]; simpl; intros acc.
  - now rewrite app_nil_r.
  - now rewrite IH, <- app_assoc.
Qed.

Section FieldsOfRuns.
Context `{Builtins}.

Definition sale_date (sale : Sale) : date := date_of (timestamp sale).
Definition sale_month (sale : Sale) : string := strftime_Ym (timestamp sale).
Definition sale_hour (sale : Sale) : Z := hour (timestamp sale).

Lemma daily_volume_apply_sales sales : forall self,
  daily_volume (apply_sales self sales)
  = accumulate sale_date 0 (fun s v => v + volume s) (daily_volume self) sales.
Proof. induction sales as [|s sales IH]; intros self; [reflexivity|apply IH]. Qed.

Lemma daily_value_apply_sales sales : forall self,
  daily_value (apply_sales self sales)
  = accumulate sale_date 0%float (fun s v => (v + value s)%float)
               (daily_value self) sales.
Proof. induction sales as [|s sales IH]; intros self; [reflexivity|apply IH]. Qed.

Lemma product_volume_apply_sales sales : forall self,
  product_volume (apply_sales self sales)
  = accumulate product_id 0 (fun p v => v + qty p)
               (product_volume self) (flat_map products sales).
Proof.
  induction sales as [|s sales IH]; intros self; [reflexivity|].
  simpl flat_map. unfold accumulate. rewrite fold_left_app.
  simpl apply_sales. rewrite IH. reflexivity.
Qed.

Lemma monthly_apply_sales sales : forall self,
  monthly_staff_sales (apply_sales self sales)
  = accumulate sale_month dict_new
      (fun s staff_sales => upd staff_sales (staff s) 0 (fun v => v + volume s))
      (monthly_staff_sales self) sales.
Proof. induction sales as [|s sales IH]; intros self; [reflexivity|apply IH]. Qed.

Lemma hourly_apply_sales sales : forall self,
  hourly_volumes (apply_sales self sales)
  = accumulate sale_hour [] (fun s l => (l ++ [volume s])%list)
               (hourly_volumes self) sales.
Proof. induction sales as [|s sales IH]; intros self; [reflexivity|apply IH]. Qed.
End FieldsOfRuns.

(* ================================================================== *)
(** * The aggregates as functions of the ingested sales *)

Section AggregatesOfSales.
Context `{Builtins}.

Lemma well_formed_reads sale :
  well_formed sale = true ->
  sale_volume_of sale = OK (volume sale)
  /\ py_float (amount sale) = Some (value sale).
Proof.
  unfold well_formed. intros W. apply andb_prop in W as [W1 W2]. split.
  - unfold sale_volume_of. now apply foldM_quantities_ok.
  - unfold value. destruct (py_float (amount sale)); [reflexivity|discriminate].
Qed.

Lemma ingested_reads lines self :
  ingested lines self ->
  forall sale, In sale (transactions self) ->
    sale_volume_of sale = OK (volume sale)
    /\ py_float (amount sale) = Some (value sale).
Proof.
  intros I sale Hin. apply ingested_inv in I as (sales & _ & W & T & _).
  subst sales. rewrite forallb_forall in W. now apply well_formed_reads, W.
Qed.

(** X1. After an ingestion, the volume of a day is the sum of the volumes of
    the sales of that day, and its value is the float sum of their
    amounts, added from zero in the order the sales were read; a day
    without a sale has no entry. The volume and amount of each sale are
    those [int] and [float] read. *)
Theorem daily_aggregates_of_sales (lines : list string) (self : MonieshopAnalyser) :
  ingested lines self ->
  (forall sale, In sale (transactions self) ->
                sale_volume_of sale = OK (volume sale)
                /\ py_float (amount sale) = Some (value sale))
  /\ forall d,
      dict_lookup (daily_volume self) d
      = match at_key sale_date d (transactions self) with
        | [] => None
        | sel => Some (sum (map volume sel))
        end
      /\ dict_lookup (daily_value self) d
         = match at_key sale_date d (transactions self) with
           | [] => None
           | sel => Some (fold_left (fun v s => v + value s)%float sel 0%float)
           end.
Proof.
  intros I. split; [now apply ingested_reads with lines|].
  apply ingested_inv in I as (sales & _ & _ & _ & ->). simpl. intros d.
  rewrite daily_volume_apply_sales, daily_value_apply_sales,
    !lookup_accumulate.
  destruct (at_key sale_date d sales) as [|s sel]; [split; reflexivity|].
  split; [|reflexivity]. f_equal.
  change (dict_get (daily_volume MonieshopAnalyser_init) d 0) with 0.
  rewrite <- (fold_left_map Z.add volume). reflexivity.
Qed.

(** X2. After an ingestion, the volume of a product is the sum of the
    quantities of its entries in the product lists of all the sales; a
    product that no sale lists has no entry. *)
Theorem product_volume_of_sales (lines : list string) (self : MonieshopAnalyser) :
  ingested lines self ->
  forall p,
    dict_lookup (product_volume self) p
    = match at_key product_id p (flat_map products (transactions self)) with
      | [] => None
      | sel => Some (sum (map qty sel))
      end.
Proof.
  intros I p. apply ingested_inv in I as (sales & _ & _ & _ & ->). simpl.
  rewrite product_volume_apply_sales, lookup_accumulate.
  destruct (at_key product_id p (flat_map products sales)) as [|s sel];
    [reflexivity|].
  f_equal. change (dict_get (product_volume MonieshopAnalyser_init) p 0) with 0.
  rewrite <- (fold_left_map Z.add qty). reflexivity.
Qed.

(** X3. After an ingestion, the volume of a staff in a month is the sum of
    the volumes of the sales of that staff in that month; a month without
    a sale has no entry, and a staff without a sale in the month has none
    in the month's dictionary. *)
Theorem monthly_staff_sales_of_sales (lines : list string) (self : MonieshopAnalyser) :
  ingested lines self ->
  forall m s,
    match dict_lookup (monthly_staff_sales self) m with
    | Some staff_sales => dict_lookup staff_sales s
    | None => None
    end
    = match at_key staff s (at_key sale_month m (transactions self)) with
      | [] => None
      | sel => Some (sum (map volume sel))
      end
    /\ (dict_lookup (monthly_staff_sales self) m = None
        <-> at_key sale_month m (transactions self) = []).
Proof.
  intros I m s. apply ingested_inv in I as (sales & _ & _ & _ & ->). simpl.
  rewrite monthly_apply_sales, lookup_accumulate.
  destruct (at_key sale_month m sales) as [|s0 sel] eqn:E.
  - split; [reflexivity | split; reflexivity].
  - split; [|split; discriminate].
    change (fold_left _ (s0 :: sel) _)
      with (accumulate staff 0 (fun s v => v + volume s)
              (dict_get (monthly_staff_sales MonieshopAnalyser_init) m dict_new)
              (s0 :: sel)).
    rewrite lookup_accumulate.
    destruct (at_key staff s (s0 :: sel)) as [|s1 sel']; [reflexivity|].
    f_equal. rewrite <- (fold_left_map Z.add volume). reflexivity.
Qed.

(** X4. After an ingestion, the list of an hour holds the volumes of the
    sales of that hour of the day, one each, in the order the sales were
    read; an hour without a sale has no entry. *)
Theorem hourly_volumes_of_sales (lines : list string) (self : MonieshopAnalyser) :
  ingested lines self ->
  forall h,
    dict_lookup (hourly_volumes self) h
    = match at_key sale_hour h (transactions self) with
      | [] => None
      | sel => Some (map volume sel)
      end.
Proof.
  intros I h. apply ingested_inv in I as (sales & _ & _ & _ & ->). simpl.
  rewrite hourly_apply_sales, lookup_accumulate.
  destruct (at_key sale_hour h sales) as [|s sel]; [reflexivity|].
  f_equal. now rewrite (fold_append_shift volume).
Qed.
End AggregatesOfSales.

(* ================================================================== *)
(** * Totals and the order of the keys *)

Section Totals.
Context {K V : Type} `{EqDec K}.
Variable size : V -> Z.
Variable default : V.
Hypothesis size_default : size default = 0.

(** The sum of [size] over the values of a dictionary. *)
Definition dict_total (d : dict K V) : Z := sum (map (fun e => size (snd e)) d).

Lemma total_setitem (d : dict K V) k v :
  dict_total (dict_setitem d k v) = dict_total d - size (dict_get d k default) + size v.
Proof.
  unfold dict_total, dict_get. induction d as [|[k1 v1] d IH]; simpl.
  - rewrite sum_cons. unfold sum; simpl. lia.
  - destruct (eqb k1 k); simpl; rewrite !sum_cons; simpl; [lia|].
    rewrite IH. lia.
Qed.

Lemma total_upd (d : dict K V) k f q :
  (forall v, size (f v) = size v + q) ->
  dict_total (upd d k default f) = dict_total d + q.
Proof. intros F. unfold upd. rewrite total_setitem, F. lia. Qed.
End Totals.

Section TotalsOfRuns.
Context `{Builtins}.

Definition units (d : dict string Z) : Z := dict_total (fun v => v) d.

Lemma fold_add_total (ps : list product) : forall pv : dict string Z,
  units (fold_left (fun pv p => add_to pv (product_id p) (qty p)) ps pv)
  = units pv + sum (map qty ps).
Proof.
  induction ps as [|p ps IH]; simpl; intros pv.
  - unfold sum. simpl. lia.
  - rewrite IH, sum_cons. unfold units, add_to.
    rewrite (total_setitem (fun v => v) 0) by reflexivity. lia.
Qed.

Lemma totals_apply_sale self sale :
  dict_total (fun v => v) (daily_volume (apply_sale self sale))
    = dict_total (fun v => v) (daily_volume self) + volume sale
  /\ units (product_volume (apply_sale self sale))
    = units (product_volume self) + volume sale
  /\ dict_total units (monthly_staff_sales (apply_sale self sale))
    = dict_total units (monthly_staff_sales self) + volume sale
  /\ dict_total sum (hourly_volumes (apply_sale self sale))
    = dict_total sum (hourly_volumes self) + volume sale.
Proof.
  simpl. unfold units, add_to. repeat split.
  - rewrite (total_setitem (fun v => v) 0) by reflexivity. lia.
  - apply fold_add_total.
  - rewrite (total_setitem (dict_total (fun v => v)) dict_new) by reflexivity.
    rewrite (total_setitem (fun v => v) 0) by reflexivity.
    transitivity (dict_total (dict_total (fun v : Z => v))
                    (monthly_staff_sales self) + volume sale);
      [lia | reflexivity].
  - rewrite (total_setitem sum []) by reflexivity.
    rewrite sum_app. unfold sum at 4. simpl. lia.
Qed.

Lemma totals_apply_sales sales : forall self,
  let self' := apply_sales self sales in
  let sold := sum (map volume sales) in
  dict_total (fun v => v) (daily_volume self')
    = dict_total (fun v => v) (daily_volume self) + sold
  /\ units (product_volume self') = units (product_volume self) + sold
  /\ dict_total units (monthly_staff_sales self')
    = dict_total units (monthly_staff_sales self) + sold
  /\ dict_total sum (hourly_volumes self') = dict_total sum (hourly_volumes self) + sold.
Proof.
  induction sales as [|s sales IH]; intros self; simpl.
  - unfold sum; simpl. repeat split; lia.
  - destruct (IH (apply_sale self s)) as (A & B & C & D).
    destruct (totals_apply_sale self s) as (A' & B' & C' & D').
    rewrite sum_cons. rewrite A, B, C, D, A', B', C', D'. repeat split; lia.
Qed.

(** X5. After an ingestion every unit sold is counted once in each of the
    four volume dictionaries: the daily volumes, the product volumes, the
    volumes of all staff over all months and the volumes of all hours each
    add up to the sum of the volumes of the ingested sales. *)
Theorem every_unit_counted_once (lines : list string) (self : MonieshopAnalyser) :
  ingested lines self ->
  let sold := sum (map volume (transactions self)) in
  sum (map snd (daily_volume self)) = sold
  /\ sum (map snd (product_volume self)) = sold
  /\ sum (map (fun month => sum (map snd (snd month)))
              (monthly_staff_sales self)) = sold
  /\ sum (map (fun hour => sum (snd hour)) (hourly_volumes self)) = sold.
Proof.
  intros I. apply ingested_inv in I as (sales & _ & _ & _ & ->). simpl.
  destruct (totals_apply_sales sales MonieshopAnalyser_init) as (A & B & C & D).
  unfold units, dict_total in *. simpl in *. unfold sum at 2 in A.
  unfold sum at 2 in B. unfold sum at 3 in C. unfold sum at 3 in D.
  simpl in *. repeat split; assumption.
Qed.

(** X6. After an ingestion each dictionary lists its keys in the order in
    which the sales first brought them: the days (the same for volumes and
    values), the products, the months, the staff within a month, and the
    hours. *)
Theorem keys_in_order_of_first_sale (lines : list string) (self : MonieshopAnalyser) :
  ingested lines self ->
  let sales := transactions self in
  keys (daily_volume self) = first_seen [] (map sale_date sales)
  /\ keys (daily_value self) = first_seen [] (map sale_date sales)
  /\ keys (product_volume self)
     = first_seen [] (map product_id (flat_map products sales))
  /\ keys (monthly_staff_sales self) = first_seen [] (map sale_month sales)
  /\ (forall m staff_sales,
         dict_lookup (monthly_staff_sales self) m = Some staff_sales ->
         keys staff_sales
         = first_seen [] (map staff (at_key sale_month m sales)))
  /\ keys (hourly_volumes self) = first_seen [] (map sale_hour sales).
Proof.
  intros I. apply ingested_inv in I as (sales & _ & _ & _ & ->). simpl.
  rewrite daily_volume_apply_sales, daily_value_apply_sales,
    product_volume_apply_sales, monthly_apply_sales, hourly_apply_sales,
    !keys_accumulate.
  repeat split. intros m inner. rewrite lookup_accumulate.
  destruct (at_key sale_month m sales) as [|s0 sel]; [discriminate|].
  intros E. inversion E; subst inner; clear E.
  exact (keys_accumulate staff 0 (fun s v => v + volume s) (s0 :: sel) dict_new).
Qed.
End TotalsOfRuns.

(* ================================================================== *)
(** * The maxima of [print_metrics] and their ties *)

Section FirstMax.
Context {A : Type}.
Variable key : A -> Z.

Lemma max_from_first l : forall best,
  let r := max_from Z.gtb key best l in
  (r = best /\ forall x, In x l -> key x <= key best)
  \/ exists l1 l2,
       l = (l1 ++ r :: l2)%list /\ key best < key r
       /\ (forall x, In x l1 -> key x < key r)
       /\ (forall x, In x l2 -> key x <= key r).
Proof.
  induction l as [|x l IH]; intros best; simpl.
  - left. split; [reflexivity | intros x []].
  - destruct (Z.gtb_spec (key x) (key best)) as [G|G].
    + right. destruct (IH x) as [[E L]|(l1 & l2 & E & B & L1 & L2)].
      * exists [], l. simpl. rewrite E. repeat split; auto. intros y [].
      * exists (x :: l1), l2. simpl. rewrite E at 1.
        repeat split; auto; try lia.
        intros y [<-|I]; auto.
    + destruct (IH best) as [[E L]|(l1 & l2 & E & B & L1 & L2)].
      * left. split; auto. intros y [<-|I]; auto.
      * right. exists (x :: l1), l2. simpl. rewrite E at 1.
        repeat split; auto.
        intros y [<-|I]; auto. lia.
Qed.

(** [max] over integer keys returns the first item whose key is the
    greatest: the items before it have smaller keys. *)
Lemma max_by_first l r :
  max_by Z.gtb key l = OK r ->
  exists l1 l2,
    l = (l1 ++ r :: l2)%list
    /\ (forall x, In x l1 -> key x < key r)
    /\ (forall x, In x l2 -> key x <= key r).
Proof.
  destruct l as [|best l]; simpl; [discriminate|].
  intros E. inversion E; subst; clear E.
  destruct (max_from_first l best) as [[E L]|(l1 & l2 & E & B & L1 & L2)].
  - exists [], l. simpl. rewrite E. repeat split; auto. intros x [].
  - exists (best :: l1), l2. simpl. rewrite E at 1. repeat split; auto.
    intros y [<-|I]; auto.
Qed.
End FirstMax.

Section Maxima.
Context `{Builtins}.

Lemma print_metrics_maxima self m :
  fst (print_metrics self) = OK m ->
  max_by Z.gtb snd (items (daily_volume self)) = OK (highest_volume_day m)
  /\ max_by float_gt snd (items (daily_value self)) = OK (highest_value_day m)
  /\ max_by Z.gtb snd (items (product_volume self)) = OK (most_sold_product m).
Proof.
  rewrite print_metrics_unfold.
  destruct (max_by Z.gtb snd (items (daily_volume self))); simpl;
    [|discriminate].
  destruct (max_by float_gt snd (items (daily_value self))); simpl;
    [|discriminate].
  destruct (max_by Z.gtb snd (items (product_volume self))); simpl;
    [|discriminate].
  destruct (foldM (fill top_of) (items (monthly_staff_sales self)) dict_new);
    simpl; [|discriminate].
  destruct (foldM (fill average) (items (hourly_volumes self)) dict_new)
    as [avgs|]; simpl; [|discriminate].
  destruct (max_by float_gt snd (items avgs)); simpl; [|discriminate].
  intros E. inversion E; subst. auto.
Qed.

(** X7. When [print_metrics] returns after an ingestion, the day of highest
    volume is an entry of [daily_volume]; the days listed before it (those
    whose first sale was read earlier) have a smaller volume and the days
    listed after it have no greater volume. The same holds of the most
    sold product in [product_volume]. So ties go to the key that was seen
    first. *)
Theorem volume_maxima_first_of_the_greatest
        (lines : list string) (self : MonieshopAnalyser) (m : metrics) :
  ingested lines self ->
  fst (print_metrics self) = OK m ->
  (exists before after,
      items (daily_volume self)
      = (before ++ highest_volume_day m :: after)%list
      /\ (forall e, In e before -> snd e < snd (highest_volume_day m))
      /\ (forall e, In e after -> snd e <= snd (highest_volume_day m)))
  /\ (exists before after,
      items (product_volume self)
      = (before ++ most_sold_product m :: after)%list
      /\ (forall e, In e before -> snd e < snd (most_sold_product m))
      /\ (forall e, In e after -> snd e <= snd (most_sold_product m)))
  /\ dict_lookup (daily_volume self) (fst (highest_volume_day m))
     = Some (snd (highest_volume_day m))
  /\ dict_lookup (product_volume self) (fst (most_sold_product m))
     = Some (snd (most_sold_product m)).
Proof.
  intros I P. pose proof (ingested_consistent I) as C.
  apply print_metrics_maxima in P as (P1 & _ & P3).
  pose proof (max_by_first snd _ P1) as F1.
  pose proof (max_by_first snd _ P3) as F3.
  split; [exact F1|]. split; [exact F3|].
  destruct F1 as (b1 & a1 & E1 & _), F3 as (b3 & a3 & E3 & _).
  split.
  - apply In_lookup; [apply C|].
    destruct (highest_volume_day m). rewrite E1. apply in_elt.
  - apply In_lookup; [apply C|].
    destruct (most_sold_product m). rewrite E3. apply in_elt.
Qed.

(** X8. When [print_metrics] returns after an ingestion, the day of highest
    value is an entry of [daily_value], and no day has a greater value
    (in the order of floats). *)
Theorem highest_value_day_is_max
        (lines : list string) (self : MonieshopAnalyser) (m : metrics) :
  ingested lines self ->
  fst (print_metrics self) = OK m ->
  dict_lookup (daily_value self) (fst (highest_value_day m))
  = Some (snd (highest_value_day m))
  /\ forall d v, dict_lookup (daily_value self) d = Some v ->
                 float_gt v (snd (highest_value_day m)) = false.
Proof.
  intros I P. pose proof (ingested_consistent I) as C.
  apply print_metrics_maxima in P as (_ & P2 & _).
  apply (@max_by_spec _ _ float_gt snd float_gt_trans float_gt_irrefl)
    in P2 as [Hin Hmax].
  split.
  - apply In_lookup; [apply C|]. now destruct (highest_value_day m).
  - intros d v L. apply lookup_In in L. apply (Hmax _ L).
Qed.
End Maxima.

(* ================================================================== *)
(** * What a failing update leaves behind *)

Section Failures.
Context `{Builtins}.

(** X9. The three ways [update_metrics] ends. When [int] rejects a quantity
    it raises before any assignment, and the analyser is as it was. When
    [int] reads every quantity and [float] rejects the amount it raises
    after the day's volume has been assigned: the sale is then counted in
    [daily_volume] and in no other dictionary. Otherwise it updates the
    five dictionaries. *)
Theorem update_metrics_outcome (sale : Sale) (self : MonieshopAnalyser) :
  update_metrics sale self =
  if forallb (fun p => is_some (py_int (quantity p))) (products sale)
  then if is_some (py_float (amount sale))
       then (OK tt, apply_sale self sale)
       else (Raise ValueError,
             set_daily_volume
               (add_to (daily_volume self) (sale_date sale) (volume sale))
               self)
  else (Raise ValueError, self).
Proof.
  destruct (forallb _ (products sale)) eqn:Q.
  - destruct (is_some (py_float (amount sale))) eqn:F.
    + apply update_metrics_ok. unfold well_formed. now rewrite Q, F.
    + unfold update_metrics, sale_volume_of.
      unfold Meth.bind at 1. unfold Meth.eval at 1.
      rewrite (foldM_quantities_ok _ 0 Q).
      fold (sum (map qty (products sale))). fold (volume sale).
      unfold Meth.bind at 1. unfold Meth.eval at 1.
      unfold Meth.bind at 1. unfold Meth.assign at 1.
      unfold Meth.bind at 1. unfold Meth.eval at 1.
      destruct (py_float (amount sale)); [discriminate|]. reflexivity.
  - unfold update_metrics, sale_volume_of.
    unfold Meth.bind at 1. unfold Meth.eval at 1.
    now rewrite (foldM_quantities_fail _ 0 Q).
Qed.

Lemma update_metrics_transactions sale self :
  transactions (snd (update_metrics sale self)) = transactions self.
Proof.
  rewrite update_metrics_outcome.
  destruct (forallb _ (products sale)); [|reflexivity].
  destruct (is_some (py_float (amount sale))); reflexivity.
Qed.

Lemma read_lines_raises lines : forall acc self e self',
  read_lines lines acc self = (Raise e, self') ->
  exists good bad rest sales,
    lines = (good ++ bad :: rest)%list
    /\ Forall2 (fun line sale => parse line = OK sale) good sales
    /\ forallb well_formed sales = true
    /\ ((parse bad = Raise e /\ self' = apply_sales self sales)
        \/ exists sale,
             parse bad = OK sale /\ well_formed sale = false
             /\ e = ValueError
             /\ self' = snd (update_metrics sale (apply_sales self sales))).
Proof.
  induction lines as [|line lines IH]; simpl; intros acc self e self' E;
    [discriminate|].
  unfold Meth.bind at 1, Meth.eval at 1 in E.
  destruct (parse line) as [sale|e0] eqn:P.
  - unfold Meth.bind at 1 in E. destruct (well_formed sale) eqn:W.
    + rewrite update_metrics_ok in E by assumption.
      apply IH in E as (good & bad & rest & sales & -> & F & Ws & D).
      exists (line :: good), bad, rest, (sale :: sales). simpl. rewrite W.
      repeat split; auto.
    + pose proof (update_metrics_fail sale self W) as R.
      destruct (update_metrics sale self) as [[[]|e1] st] eqn:U;
        simpl in R; [discriminate|].
      inversion R; subst e1. inversion E; subst.
      exists [], line, lines, []. simpl. repeat split; auto.
      right. exists sale. rewrite U. auto.
  - inversion E; subst.
    exists [], line, lines, []. simpl. repeat split; auto.
Qed.

(** X10. When [get_transactions] raises, it is at the first line that the
    parser or [update_metrics] rejects, with the exception of that line.
    The attribute [transactions] is as before the call (it is assigned
    only after the last line), while the dictionaries hold the sales of
    the lines before the rejected one, plus whatever the failing update
    assigned. *)
Theorem get_transactions_raises
        (lines : list string) (self self' : MonieshopAnalyser) (e : exn) :
  get_transactions lines self = (Raise e, self') ->
  transactions self' = transactions self
  /\ exists good bad rest sales,
      lines = (good ++ bad :: rest)%list
      /\ Forall2 (fun line sale => parse line = OK sale) good sales
      /\ forallb well_formed sales = true
      /\ ((parse bad = Raise e /\ self' = apply_sales self sales)
          \/ exists sale,
               parse bad = OK sale /\ well_formed sale = false
               /\ e = ValueError
               /\ self' = snd (update_metrics sale (apply_sales self sales))).
Proof.
  unfold get_transactions, Meth.bind, Meth.assign.
  destruct (read_lines lines [] self) as [[sales'|e0] st] eqn:R;
    [discriminate|].
  intros E. inversion E; subst. apply read_lines_raises in R.
  split; [|exact R].
  destruct R as (good & bad & rest & sales & _ & _ & _ & [[_ ->]|(s & _ & _ & _ & ->)]).
  - apply transactions_apply_sales.
  - now rewrite update_metrics_transactions, transactions_apply_sales.
Qed.

Lemma get_transactions_ok lines self sales :
  Forall2 (fun line sale => parse line = OK sale) lines sales ->
  forallb well_formed sales = true ->
  get_transactions lines self
  = (OK tt, set_transactions sales (apply_sales self sales)).
Proof.
  intros F W. unfold get_transactions, Meth.bind, Meth.assign.
  now rewrite (read_lines_ok [] self F W).
Qed.

(** X11. The dictionaries are never reset. Ingesting the same lines a second
    time on the same analyser succeeds, leaves the same list of
    [transactions], and counts every sale again: each daily volume and
    each product volume is doubled and each hour holds its volumes
    twice. *)
Theorem get_transactions_again_counts_twice
        (lines : list string) (self : MonieshopAnalyser) :
  ingested lines self ->
  exists self',
    get_transactions lines self = (OK tt, self')
    /\ transactions self' = transactions self
    /\ (forall d v, dict_lookup (daily_volume self) d = Some v ->
                    dict_lookup (daily_volume self') d = Some (2 * v))
    /\ (forall p v, dict_lookup (product_volume self) p = Some v ->
                    dict_lookup (product_volume self') p = Some (2 * v))
    /\ (forall h l, dict_lookup (hourly_volumes self) h = Some l ->
                    dict_lookup (hourly_volumes self') h = Some (l ++ l)%list).
Proof.
  intros I. apply ingested_inv in I as (sales & F & W & _ & ->).
  eexists. split; [apply (get_transactions_ok _ F W)|].
  split; [reflexivity|].
  unfold set_transactions;
    cbn [daily_volume product_volume hourly_volumes transactions].
  rewrite !daily_volume_apply_sales, !product_volume_apply_sales,
    !hourly_apply_sales.
  cbn [daily_volume product_volume hourly_volumes transactions].
  rewrite ?daily_volume_apply_sales, ?product_volume_apply_sales,
    ?hourly_apply_sales.
  repeat split.
  - intros d v. rewrite !lookup_accumulate. unfold dict_get.
    rewrite lookup_accumulate.
    destruct (at_key sale_date d sales) as [|s sel]; [discriminate|].
    intros [= <-]. f_equal.
    rewrite <- !(fold_left_map Z.add volume), !fold_add_shift.
    cbn -[Z.mul Z.add sum]. rewrite ?sum_cons. lia.
  - intros p v. rewrite !lookup_accumulate. unfold dict_get.
    rewrite lookup_accumulate.
    destruct (at_key product_id p (flat_map products sales)) as [|s sel];
      [discriminate|].
    intros [= <-]. f_equal.
    rewrite <- !(fold_left_map Z.add qty), !fold_add_shift.
    cbn -[Z.mul Z.add sum]. rewrite ?sum_cons. lia.
  - intros h l. rewrite !lookup_accumulate. unfold dict_get.
    rewrite lookup_accumulate.
    destruct (at_key sale_hour h sales) as [|s sel]; [discriminate|].
    intros [= <-]. f_equal.
    now rewrite !(fold_append_shift volume).
Qed.
End Failures.

(* ================================================================== *)
(** * Lines that render a sale, and what a parsed sale holds *)

Fixpoint has_char (c : ascii) (s : string) : bool :=
  match s with
  | EmptyString => false
  | String x r => Ascii.eqb x c || has_char c r
  end.

(** No character of [cs] occurs in [s]. *)
Definition free_of (cs : list ascii) (s : string) : bool :=
  forallb (fun c => negb (has_char c s)) cs.

(** [sep.join(l)] *)
Fixpoint join (sep : ascii) (l : list string) : string :=
  match l with
  | [] => EmptyString
  | s :: r =>
      match r with
      | [] => s
      | _ => (s ++ String sep (join sep r))%string
      end
  end.

(** The text of a product entry, of a product list and of a line. *)
Definition render_product (p : product) : string :=
  (product_id p ++ String ":" (quantity p))%string.

Definition render_products (ps : list product) : string :=
  String "[" (join "|" (map render_product ps) ++ "]")%string.

Definition render_line (staff ts : string) (ps : list product) (amount : string)
  : string :=
  join "," [staff; ts; render_products ps; amount].

Lemma has_char_app c a b :
  has_char c (a ++ b)%string = has_char c a || has_char c b.
Proof. induction a as [|x a IH]; simpl; auto. now rewrite IH, orb_assoc. Qed.

Lemma split_free c s : has_char c s = false -> split c s = [s].
Proof.
  induction s as [|x s IH]; simpl; auto.
  destruct (Ascii.eqb x c); simpl; [discriminate|].
  intros E. now rewrite IH.
Qed.

Lemma split_app c a b :
  has_char c a = false ->
  split c (a ++ String c b)%string = a :: split c b.
Proof.
  induction a as [|x a IH]; simpl.
  - now rewrite Ascii.eqb_refl.
  - destruct (Ascii.eqb x c); simpl; [discriminate|].
    intros E. now rewrite IH.
Qed.

Lemma split_join c l :
  l <> [] -> forallb (fun s => negb (has_char c s)) l = true ->
  split c (join c l) = l.
Proof.
  induction l as [|s l IH]; [congruence|]. intros _ F.
  simpl in F. apply andb_prop in F as [Fs Fl].
  apply negb_true_iff in Fs. simpl.
  destruct l as [|s' l]; [now apply split_free|].
  rewrite split_app by assumption. f_equal. apply IH; [discriminate|assumption].
Qed.

Lemma has_char_join c sep l :
  Ascii.eqb sep c = false ->
  forallb (fun s => negb (has_char c s)) l = true ->
  has_char c (join sep l) = false.
Proof.
  intros N. induction l as [|s l IH]; simpl; auto.
  intros F. apply andb_prop in F as [Fs Fl]. apply negb_true_iff in Fs.
  destruct l as [|s' l]; auto.
  rewrite has_char_app, Fs. simpl. rewrite N. simpl. now apply IH.
Qed.

Lemma drop_last_app s c : drop_last (s ++ String c EmptyString) = s.
Proof.
  induction s as [|x s IH]; simpl; auto.
  destruct s as [|y s]; simpl in *; [reflexivity|]. now rewrite IH.
Qed.

Section RoundTrip.
Context `{Builtins}.

Lemma unpack_render p :
  has_char ":" (product_id p) = false -> has_char ":" (quantity p) = false ->
  unpack_product (render_product p) = OK p.
Proof.
  intros I Q. unfold unpack_product, render_product.
  rewrite split_app, split_free by assumption. now destruct p.
Qed.

Lemma foldM_render ps : forall acc,
  forallb (fun p => free_of [":"; "|"]%char (product_id p)
                    && free_of [":"; "|"]%char (quantity p)) ps = true ->
  foldM (fun formatted_products product =>
           (p <- unpack_product product ;;
            OK (formatted_products ++ [p])%list)%py)
        (map render_product ps) acc
  = OK (acc ++ ps)%list.
Proof.
  induction ps as [|p ps IH]; simpl; intros acc F.
  - now rewrite app_nil_r.
  - apply andb_prop in F as [Fp F]. apply andb_prop in Fp as [Fi Fq].
    unfold free_of in Fi, Fq. simpl in Fi, Fq.
    rewrite !andb_true_r in *.
    apply andb_prop in Fi as [Fi _], Fq as [Fq _].
    apply negb_true_iff in Fi, Fq.
    rewrite unpack_render by assumption. simpl.
    rewrite IH by assumption. now rewrite <- app_assoc.
Qed.

Lemma render_product_free c p :
  Ascii.eqb ":" c = false ->
  has_char c (product_id p) = false -> has_char c (quantity p) = false ->
  has_char c (render_product p) = false.
Proof.
  intros N I Q. unfold render_product.
  rewrite has_char_app, I. cbn [has_char orb]. now rewrite N, Q.
Qed.

(** X12. A bracketed list of [id:quantity] entries separated by [|] is read
    back entry by entry, in order, when the list is not empty and no
    identifier or quantity contains [:] or [|]. *)
Theorem format_products_render (ps : list product) :
  ps <> [] ->
  forallb (fun p => free_of [":"; "|"]%char (product_id p)
                    && free_of [":"; "|"]%char (quantity p)) ps = true ->
  format_products (render_products ps) = OK ps.
Proof.
  intros N F. unfold format_products, render_products, slice_1_m1.
  rewrite drop_last_app, split_join.
  - now apply (foldM_render ps []).
  - destruct ps; [congruence|discriminate].
  - rewrite forallb_forall in *. intros s I.
    apply in_map_iff in I as (p & <- & I). specialize (F p I).
    apply andb_prop in F as [Fi Fq]. unfold free_of in Fi, Fq.
    simpl in Fi, Fq. rewrite !andb_true_r in *.
    apply andb_prop in Fi as [_ Fi], Fq as [_ Fq].
    apply negb_true_iff in Fi, Fq. apply negb_true_iff.
    now apply render_product_free.
Qed.

(** X13. A line made of a staff, a timestamp [fromisoformat] reads, a bracketed
    product list and an amount, joined by commas, is parsed to the sale
    with these fields, the staff, quantities and amount kept as text; it is
    required that the line has no leading or trailing whitespace, that no
    field contains a comma, and that the product list is as above. *)
Theorem parse_render
        (staff ts amount : string) (ps : list product) (dt : datetime) :
  strip (render_line staff ts ps amount) = render_line staff ts ps amount ->
  free_of [","]%char staff && free_of [","]%char ts
    && free_of [","]%char amount = true ->
  ps <> [] ->
  forallb (fun p => free_of [":"; "|"; ","]%char (product_id p)
                    && free_of [":"; "|"; ","]%char (quantity p)) ps = true ->
  fromisoformat ts = Some dt ->
  parse (render_line staff ts ps amount) = OK (Build_Sale staff dt ps amount).
Proof.
  intros S F N Fp T. unfold parse. rewrite S.
  apply andb_prop in F as [F Fa]. apply andb_prop in F as [Fs Ft].
  unfold free_of in Fs, Ft, Fa. simpl in Fs, Ft, Fa.
  rewrite andb_true_r in Fs, Ft, Fa.
  assert (Fi : forall p, In p ps ->
             forall c, In c [":"; "|"; ","]%char ->
                       has_char c (product_id p) = false
                       /\ has_char c (quantity p) = false).
  { rewrite forallb_forall in Fp. intros p I c Ic. specialize (Fp p I).
    apply andb_prop in Fp as [Fi Fq]. unfold free_of in Fi, Fq.
    rewrite forallb_forall in Fi, Fq.
    split; apply negb_true_iff; auto. }
  assert (Fr : has_char "," (render_products ps) = false).
  { unfold render_products. cbn [has_char]. rewrite has_char_app.
    change (Ascii.eqb "[" ",") with false. cbn [orb].
    rewrite has_char_join; [reflexivity | reflexivity |].
    rewrite forallb_forall. intros s I.
    apply in_map_iff in I as (p & <- & I). apply negb_true_iff.
    destruct (Fi p I ","%char) as [A B]; [simpl; tauto|].
    now apply render_product_free. }
  unfold render_line. rewrite split_join; [|discriminate|].
  2:{ cbn [forallb]. rewrite Fs, Ft, Fa, Fr. reflexivity. }
  unfold Sale_init, index, format_timestamp. simpl. rewrite T. simpl.
  rewrite format_products_render; [reflexivity | assumption |].
  rewrite forallb_forall. intros p I. unfold free_of. simpl.
  destruct (Fi p I ":"%char) as [A B]; [simpl; tauto|].
  destruct (Fi p I "|"%char) as [A' B']; [simpl; tauto|].
  now rewrite A, B, A', B'.
Qed.

Lemma foldM_products_tokens toks : forall acc ps,
  foldM (fun formatted_products product =>
           (p <- unpack_product product ;;
            OK (formatted_products ++ [p])%list)%py) toks acc = OK ps ->
  exists ps', ps = (acc ++ ps')%list
              /\ map (fun p => [product_id p; quantity p]) ps'
                 = map (split ":") toks.
Proof.
  induction toks as [|tok toks IH]; simpl; intros acc ps E.
  - inversion E; subst. exists []. now rewrite app_nil_r.
  - unfold unpack_product at 1 in E.
    destruct (split ":" tok) as [|i [|q [|x l]]] eqn:S; simpl in E;
      try discriminate.
    apply IH in E as (ps' & -> & M).
    exists ({| product_id := i; quantity := q |} :: ps').
    rewrite <- app_assoc. simpl. now rewrite M.
Qed.

(** X14. What a parsed sale holds. The stripped line has at least four
    comma-separated fields; the staff is the first and the amount the
    fourth, as text; the timestamp is what [fromisoformat] reads in the
    second; the products are, in order, the two tokens at [:] of each
    [|]-separated entry of the third field without its first and last
    characters, and there is at least one. *)
Theorem parse_ok_fields (line : string) (sale : Sale) :
  parse line = OK sale ->
  exists r0 r1 r2 r3 rest,
    split "," (strip line) = r0 :: r1 :: r2 :: r3 :: rest
    /\ staff sale = r0
    /\ fromisoformat r1 = Some (timestamp sale)
    /\ amount sale = r3
    /\ map (fun p => [product_id p; quantity p]) (products sale)
       = map (split ":") (split "|" (slice_1_m1 r2))
    /\ products sale <> [].
Proof.
  intros P. pose proof (parse_products_nonempty _ P) as NE. revert P.
  unfold parse, Sale_init, index, format_timestamp.
  destruct (split "," (strip line)) as [|r0 [|r1 [|r2 [|r3 rest]]]]; simpl;
    try discriminate;
    destruct (fromisoformat r1) eqn:T; simpl; try discriminate;
    destruct (format_products r2) as [ps|] eqn:F; simpl; try discriminate.
  intros E. inversion E; subst; simpl in *.
  exists r0, r1, r2, r3, rest. repeat split; auto.
  apply foldM_products_tokens in F as (ps' & -> & M). exact M.
Qed.
End RoundTrip.

(* ================================================================== *)
(** * The name printed for a month *)

(** [s[-2:]]: the last two characters (the whole string when shorter). *)
Definition slice_m2 (s : string) : string :=
  substring (String.length s - 2) 2 s.

(** [calendar.month_name], in the default locale: thirteen entries, the
    first one empty. *)
Definition month_name : list string :=
  [""; "January"; "February"; "March"; "April"; "May"; "June"; "July";
   "August"; "September"; "October"; "November"; "December"].

(** [l[i]] for an integer [i]; a negative index counts from the end. *)
Definition index_Z {A} (l : list A) (i : Z) : outcome A :=
  if 0 <=? i then of_option IndexError (nth_error l (Z.to_nat i))
  else if - len l <=? i
       then of_option IndexError (nth_error l (Z.to_nat (len l + i)))
       else Raise IndexError.

Section MonthLabel.
Context `{Builtins}.

(** [month_name[int(month[-2:])]], the name under which the last loop of
    [print_metrics] prints the entry of the key [month]. *)
Definition month_label (month : string) : outcome string :=
  n <- of_option ValueError (py_int (slice_m2 month)) ;;
  index_Z month_name n.
End MonthLabel.

Lemma slice_m2_strftime dt : slice_m2 (strftime_Ym dt) = zfill2 (month dt).
Proof.
  unfold strftime_Ym, year_text.
  destruct (year dt <? 10); [reflexivity|].
  destruct (year dt <? 100); [reflexivity|].
  destruct (year dt <? 1000); reflexivity.
Qed.

Lemma int_zfill2_month mo :
  1 <= mo <= 12 -> Concrete.int (zfill2 mo) = Some mo.
Proof.
  intros R.
  assert (C : mo = 1 \/ mo = 2 \/ mo = 3 \/ mo = 4 \/ mo = 5 \/ mo = 6
              \/ mo = 7 \/ mo = 8 \/ mo = 9 \/ mo = 10 \/ mo = 11 \/ mo = 12)
    by lia.
  repeat (destruct C as [->|C]; [reflexivity|]). subst. reflexivity.
Qed.

(** X15. With [int] as implemented above, the name printed for the key of a
    date in range is found without an exception and is the name of the
    month of the date: it does not show the year, so that the same month of
    two years is printed under the same name. *)
Theorem month_label_is_month_name (dt : datetime) :
  valid_datetime dt = true ->
  @month_label Concrete.builtins (strftime_Ym dt)
  = OK (nth (Z.to_nat (month dt)) month_name "")
  /\ nth (Z.to_nat (month dt)) month_name "" <> ""
  /\ forall dt',
      valid_datetime dt' = true -> month dt' = month dt ->
      @month_label Concrete.builtins (strftime_Ym dt')
      = @month_label Concrete.builtins (strftime_Ym dt).
Proof.
  assert (L : forall d, valid_datetime d = true ->
                @month_label Concrete.builtins (strftime_Ym d)
                = OK (nth (Z.to_nat (month d)) month_name "")
                  /\ nth (Z.to_nat (month d)) month_name "" <> "").
  { intros d V. apply valid_year_month in V as [_ R].
    unfold month_label. rewrite slice_m2_strftime.
    change (@py_int Concrete.builtins) with Concrete.int.
    rewrite int_zfill2_month by assumption. cbn [bind of_option].
    assert (C : month d = 1 \/ month d = 2 \/ month d = 3 \/ month d = 4
                \/ month d = 5 \/ month d = 6 \/ month d = 7 \/ month d = 8
                \/ month d = 9 \/ month d = 10 \/ month d = 11
                \/ month d = 12) by lia.
    repeat (destruct C as [->|C]; [split; [reflexivity|discriminate]|]).
    rewrite C. split; [reflexivity|discriminate]. }
  intros V. destruct (L dt V) as [A B]. split; [exact A|]. split; [exact B|].
  intros dt' V' E. destruct (L dt' V') as [A' _]. now rewrite A, A', E.
Qed.

(* ================================================================== *)
(** * The report of a single sale *)

Section SingleSale.
Context `{Builtins}.

End SingleSale.

(* ================================================================== *)
(** * The scenarios, with the implementation of the library functions *)

Module Scenario.
Import Concrete.

Definition scenario_lines : list string :=
  ["4,2025-01-01T16:58:53,[726107:5|553776:5],2114.235";
   "7,2025-01-01T09:10:00,[726107:3],500.00"].

Definition jan_1_2025 : date := {| d_year := 2025; d_month := 1; d_day := 1 |}.

(** C1. Analysing the two lines of the scenario gives: the highest volume
    in a day, 13 on 2025-01-01; the highest value in a day, the float
    nearest to 2614.235, on 2025-01-01; the most sold product, 726107 with
    8 units; the top staff of 2025-01, staff 4 with 10 units; the peak
    hour, 16 with an average of 10.0. *)
Theorem scenario_metrics :
  exists m self,
    analyse_yearly_transactions scenario_lines MonieshopAnalyser_init = (OK m, self)
    /\ highest_volume_day m = (jan_1_2025, 13)
    /\ fst (highest_value_day m) = jan_1_2025
    /\ Some (snd (highest_value_day m)) = float "2614.235"
    /\ most_sold_product m = ("726107", 8)
    /\ dict_lookup (monthly_top_staff m) "2025-01" = Some ("4", 10)
    /\ staff_lines m = [("2025-01", ("4", 10))]
    /\ fst (peak_hour m) = 16
    /\ Some (snd (peak_hour m)) = float "10.0".
Proof.
  eexists. eexists. split; [vm_compute; reflexivity|].
  vm_compute. repeat split.
Qed.

Definition sale_at (ts : datetime) (ps : list product) (a : string) : Sale :=
  {| staff := "4"; timestamp := ts; products := ps; amount := a |}.

Definition t_16_58_53 : datetime :=
  {| year := 2025; month := 1; day := 1;
     hour := 16; minute := 58; second := 53; microsecond := 0 |}.

(** C2 fails on the code: a product list without its closing bracket is
    parsed, its last character taken for the bracket (the quantity 15 is
    read as 1); a quantity that is not a number is parsed; a fifth field is
    ignored. *)
Lemma parse_accepts_malformed_lines :
  parse "4,2025-01-01T16:58:53,[726107:5|553776:15,2114.235"
    = OK (sale_at t_16_58_53
            [ {| product_id := "726107"; quantity := "5" |};
              {| product_id := "553776"; quantity := "1" |} ] "2114.235")
  /\ parse "4,2025-01-01T16:58:53,[726107:x],2114.235"
    = OK (sale_at t_16_58_53
            [ {| product_id := "726107"; quantity := "x" |} ] "2114.235")
  /\ int "x" = None
  /\ parse "4,2025-01-01T16:58:53,[726107:5],2114.235,extra"
    = OK (sale_at t_16_58_53
            [ {| product_id := "726107"; quantity := "5" |} ] "2114.235").
Proof. repeat split. Qed.

(** C3 fails on the code: the parser returns a sale for each of these two
    lines, and [update_metrics] raises [ValueError] on it, at [int] for the
    first and at [float] for the second. *)
Lemma update_metrics_raises_on_parsed_sale :
  (exists sale,
      parse "4,2025-01-01T16:58:53,[726107:x],2114.235" = OK sale
      /\ fst (update_metrics sale MonieshopAnalyser_init) = Raise ValueError)
  /\ (exists sale,
      parse "4,2025-01-01T16:58:53,[726107:5],12.5USD" = OK sale
      /\ fst (update_metrics sale MonieshopAnalyser_init) = Raise ValueError).
Proof. split; eexists; split; try reflexivity. Qed.

Definition sale_1 : Sale :=
  sale_at t_16_58_53
    [ {| product_id := "726107"; quantity := "5" |};
      {| product_id := "553776"; quantity := "5" |} ] "2114.235".

(** On the first line of the scenario, [int] reads 5 and 5, and 10 is what
    the sale adds to its day, to its staff in its month and to its hour. *)
Lemma sale_volume_in_every_aggregate_witness :
  well_formed sale_1 = true /\
  map (fun p => int (quantity p)) (products sale_1) = [Some 5; Some 5] /\
  sale_volume_of sale_1 = OK 10 /\
  exists self',
    update_metrics sale_1 MonieshopAnalyser_init = (OK tt, self') /\
    dict_lookup (daily_volume self') jan_1_2025 = Some 10 /\
    (exists staff_sales,
        dict_lookup (monthly_staff_sales self') "2025-01" = Some staff_sales /\
        dict_lookup staff_sales "4" = Some 10) /\
    dict_lookup (hourly_volumes self') 16 = Some [10].
Proof.
  assert (W : well_formed sale_1 = true) by reflexivity.
  split; [exact W|]. split; [reflexivity|].
  destruct (sale_volume_in_every_aggregate sale_1 MonieshopAnalyser_init W)
    as (quantities & self' & Q & V & _ & U & D & M & Hh).
  change (map (fun p => py_int (quantity p)) (products sale_1))
    with [Some 5; Some 5] in Q.
  destruct quantities as [|a [|b [|c quantities]]]; try discriminate Q.
  injection Q as <- <-.
  split; [exact V|]. exists self'.
  split; [exact U|]. split; [exact D|]. split; [exact M | exact Hh].
Defined.

(** ** The state after the two lines of the scenario *)

Definition scenario_state : MonieshopAnalyser :=
  snd (get_transactions scenario_lines MonieshopAnalyser_init).

(** On the scenario every average is a float, the results are computed,
    and the peak hour is 16 with the average 10.0 of its one sale. *)
Lemma peak_hour_is_max_average_witness :
  ingested scenario_lines scenario_state
  /\ scenario_lines <> []
  /\ (forall h volumes,
         dict_lookup (hourly_volumes scenario_state) h = Some volumes ->
         is_ok (int_truediv (sum volumes) (len volumes)) = true)
  /\ fst (print_metrics scenario_state) <> Raise ZeroDivisionError
  /\ exists m,
       fst (print_metrics scenario_state) = OK m
       /\ peak_hour m = (16, 10%float)
       /\ exists volumes,
            dict_lookup (hourly_volumes scenario_state) (fst (peak_hour m))
              = Some volumes
            /\ int_truediv (sum volumes) (len volumes) = OK (snd (peak_hour m))
            /\ forall h' volumes',
                 dict_lookup (hourly_volumes scenario_state) h' = Some volumes' ->
                 exists avg',
                   int_truediv (sum volumes') (len volumes') = OK avg'
                   /\ float_gt avg' (snd (peak_hour m)) = false.
Proof.
  assert (I : ingested scenario_lines scenario_state)
    by (vm_compute; reflexivity).
  assert (NL : scenario_lines <> []) by discriminate.
  assert (AVG : forall h volumes,
             dict_lookup (hourly_volumes scenario_state) h = Some volumes ->
             is_ok (int_truediv (sum volumes) (len volumes)) = true).
  { intros h volumes L. apply lookup_In in L. vm_compute in L.
    destruct L as [L|[L|[]]]; inversion L; subst; vm_compute; reflexivity. }
  destruct (peak_hour_is_max_average I) as (_ & NZ & Computed & _ & _ & Peak).
  destruct (Computed NL AVG) as [m P].
  split; [exact I|]. split; [exact NL|]. split; [exact AVG|].
  split; [exact NZ|].
  exists m. split; [exact P|]. split; [|exact (Peak m P)].
  assert (E : fst (print_metrics scenario_state) = OK m) by exact P.
  vm_compute in E. injection E as <-. reflexivity.
Defined.

(** ** Sales of two years *)

Definition two_year_lines : list string :=
  ["4,2025-01-05T10:00:00,[726107:2],2.0";
   "7,2024-12-31T23:10:00,[553776:3],1.5";
   "9,2024-01-15T08:00:00,[726107:1],0.5"].

Definition two_year_state : MonieshopAnalyser :=
  snd (get_transactions two_year_lines MonieshopAnalyser_init).

Definition two_year_report : metrics :=
  {| highest_volume_day := ({| d_year := 2024; d_month := 12; d_day := 31 |}, 3);
     highest_value_day := ({| d_year := 2025; d_month := 1; d_day := 5 |}, 2%float);
     most_sold_product := ("726107", 3);
     monthly_top_staff :=
       [("2025-01", ("4", 2)); ("2024-12", ("7", 3)); ("2024-01", ("9", 1))];
     staff_lines :=
       [("2024-01", ("9", 1)); ("2024-12", ("7", 3)); ("2025-01", ("4", 2))];
     peak_hour := (23, 3%float) |}.


(** ** A sale before the year 1000 *)






(** ** The order of the sales *)

(** Prove the first part of a conjunction by evaluation. *)
Ltac conj_compute :=
  match goal with
  | |- _ /\ _ => split; [vm_compute; reflexivity|]
  end.

Definition sale_of (line : string) : Sale :=
  match parse line with
  | OK sale => sale
  | Raise _ => sale_at t_16_58_53 [] ""
  end.

Definition tenth : Sale := sale_of "4,2025-01-01T16:58:53,[726107:1],0.1".
Definition fifth : Sale := sale_of "4,2025-01-01T16:10:00,[726107:2],0.2".
Definition three_tenths : Sale := sale_of "4,2025-01-01T16:30:00,[726107:3],0.3".

(** C7 fails on the code: three sales of the same day and hour, folded in
    one order and in the reverse order, leave different volumes for the
    hour ([1, 2, 3] and [3, 2, 1]) and different values for the day (the
    float sums 0.1 + 0.2 + 0.3 and 0.3 + 0.2 + 0.1 are not equal). *)
Lemma order_changes_hourly_volumes_and_daily_value :
  exists self1 self2 v1 v2,
    Permutation [tenth; fifth; three_tenths] [three_tenths; fifth; tenth]
    /\ update_all [tenth; fifth; three_tenths] MonieshopAnalyser_init = (OK tt, self1)
    /\ update_all [three_tenths; fifth; tenth] MonieshopAnalyser_init = (OK tt, self2)
    /\ dict_lookup (hourly_volumes self1) 16 = Some [1; 2; 3]
    /\ dict_lookup (hourly_volumes self2) 16 = Some [3; 2; 1]
    /\ dict_lookup (daily_value self1) jan_1_2025 = Some v1
    /\ dict_lookup (daily_value self2) jan_1_2025 = Some v2
    /\ PrimFloat.eqb v1 v2 = false.
Proof.
  do 4 eexists. split.
  { change [three_tenths; fifth; tenth] with (rev [tenth; fifth; three_tenths]).
    apply Permutation_rev. }
  repeat conj_compute. vm_compute; reflexivity.
Qed.

Lemma update_order_independent_witness :
  Permutation [tenth; fifth] [fifth; tenth]
  /\ update_all [tenth; fifth] MonieshopAnalyser_init
     = (OK tt, snd (update_all [tenth; fifth] MonieshopAnalyser_init))
  /\ exists self2,
      update_all [fifth; tenth] MonieshopAnalyser_init = (OK tt, self2)
      /\ same_aggregates (snd (update_all [tenth; fifth] MonieshopAnalyser_init)) self2
      /\ forall h,
          opt_rel (fun l1 l2 => sum l1 = sum l2 /\ len l1 = len l2
                                /\ average l1 = average l2)
                  (dict_lookup (hourly_volumes
                     (snd (update_all [tenth; fifth] MonieshopAnalyser_init))) h)
                  (dict_lookup (hourly_volumes self2) h).
Proof.
  assert (P : Permutation [tenth; fifth] [fifth; tenth]) by apply perm_swap.
  assert (U : update_all [tenth; fifth] MonieshopAnalyser_init
              = (OK tt, snd (update_all [tenth; fifth] MonieshopAnalyser_init)))
    by (vm_compute; reflexivity).
  split; [exact P|]. split; [exact U|].
  exact (update_order_independent P U).
Defined.

(** ** Negative quantities and amounts *)

Definition sold : Sale := sale_of "4,2025-01-01T16:58:53,[726107:5],10.0".
Definition returned : Sale := sale_of "4,2025-01-01T17:05:00,[726107:-3],-4.0".

(** C10 fails on the code: the parser and [update_metrics] accept a
    negative quantity and a negative amount, and the day's volume and
    value, the product's volume and the staff's volume of the month all
    decrease. *)
Lemma negative_sale_decreases_aggregates :
  parse "4,2025-01-01T17:05:00,[726107:-3],-4.0" = OK returned
  /\ exists self1 self2 staff_sales1 staff_sales2 v1 v2,
      update_metrics sold MonieshopAnalyser_init = (OK tt, self1)
      /\ update_metrics returned self1 = (OK tt, self2)
      /\ dict_lookup (daily_volume self1) jan_1_2025 = Some 5
      /\ dict_lookup (daily_volume self2) jan_1_2025 = Some 2
      /\ dict_lookup (product_volume self1) "726107" = Some 5
      /\ dict_lookup (product_volume self2) "726107" = Some 2
      /\ dict_lookup (monthly_staff_sales self1) "2025-01" = Some staff_sales1
      /\ dict_lookup (monthly_staff_sales self2) "2025-01" = Some staff_sales2
      /\ dict_lookup staff_sales1 "4" = Some 5
      /\ dict_lookup staff_sales2 "4" = Some 2
      /\ dict_lookup (daily_value self1) jan_1_2025 = Some v1
      /\ dict_lookup (daily_value self2) jan_1_2025 = Some v2
      /\ PrimFloat.ltb v2 v1 = true.
Proof.
  split; [reflexivity|].
  do 6 eexists. repeat conj_compute. vm_compute; reflexivity.
Qed.

Lemma aggregates_keep_and_grow_witness :
  update_all [sold; tenth] MonieshopAnalyser_init
  = (OK tt, snd (update_all [sold; tenth] MonieshopAnalyser_init))
  /\ extends (fun _ _ => True) MonieshopAnalyser_init
             (snd (update_all [sold; tenth] MonieshopAnalyser_init))
  /\ (forall sale, In sale [sold; tenth] ->
                   recorded sale (snd (update_all [sold; tenth] MonieshopAnalyser_init))).
Proof.
  assert (U : update_all [sold; tenth] MonieshopAnalyser_init
              = (OK tt, snd (update_all [sold; tenth] MonieshopAnalyser_init)))
    by (vm_compute; reflexivity).
  split; [exact U|].
  pose proof (@aggregates_keep_and_grow _ _ _ _ U) as T.
  split; [exact (proj1 (proj2 T)) | exact (proj1 (proj2 (proj2 T)))].
Defined.

(** ** The aggregates of the scenario and of the two years *)

Lemma scenario_ingested : ingested scenario_lines scenario_state.
Proof. vm_compute. reflexivity. Defined.

Lemma two_year_ingested : ingested two_year_lines two_year_state.
Proof. vm_compute. reflexivity. Defined.

Lemma two_year_printed : fst (print_metrics two_year_state) = OK two_year_report.
Proof. vm_compute. reflexivity. Defined.

Lemma daily_aggregates_of_sales_witness :
  ingested scenario_lines scenario_state
  /\ forall d,
      dict_lookup (daily_volume scenario_state) d
      = match at_key sale_date d (transactions scenario_state) with
        | [] => None
        | sel => Some (sum (map volume sel))
        end
      /\ dict_lookup (daily_value scenario_state) d
         = match at_key sale_date d (transactions scenario_state) with
           | [] => None
           | sel => Some (fold_left (fun v s => v + value s)%float sel 0%float)
           end.
Proof.
  split; [exact scenario_ingested|].
  exact (proj2 (daily_aggregates_of_sales scenario_ingested)).
Defined.

Lemma product_volume_of_sales_witness :
  ingested scenario_lines scenario_state
  /\ forall p,
      dict_lookup (product_volume scenario_state) p
      = match at_key product_id p
                (flat_map products (transactions scenario_state)) with
        | [] => None
        | sel => Some (sum (map qty sel))
        end.
Proof.
  split; [exact scenario_ingested|].
  exact (product_volume_of_sales scenario_ingested).
Defined.

Lemma monthly_staff_sales_of_sales_witness :
  ingested scenario_lines scenario_state
  /\ forall m s,
      match dict_lookup (monthly_staff_sales scenario_state) m with
      | Some staff_sales => dict_lookup staff_sales s
      | None => None
      end
      = match at_key staff s
                (at_key sale_month m (transactions scenario_state)) with
        | [] => None
        | sel => Some (sum (map volume sel))
        end
      /\ (dict_lookup (monthly_staff_sales scenario_state) m = None
          <-> at_key sale_month m (transactions scenario_state) = []).
Proof.
  split; [exact scenario_ingested|].
  exact (monthly_staff_sales_of_sales scenario_ingested).
Defined.

Lemma hourly_volumes_of_sales_witness :
  ingested scenario_lines scenario_state
  /\ forall h,
      dict_lookup (hourly_volumes scenario_state) h
      = match at_key sale_hour h (transactions scenario_state) with
        | [] => None
        | sel => Some (map volume sel)
        end.
Proof.
  split; [exact scenario_ingested|].
  exact (hourly_volumes_of_sales scenario_ingested).
Defined.

Lemma every_unit_counted_once_witness :
  ingested scenario_lines scenario_state
  /\ sum (map snd (daily_volume scenario_state))
     = sum (map volume (transactions scenario_state))
  /\ sum (map snd (product_volume scenario_state))
     = sum (map volume (transactions scenario_state)).
Proof.
  split; [exact scenario_ingested|].
  pose proof (every_unit_counted_once scenario_ingested) as T.
  split; [exact (proj1 T) | exact (proj1 (proj2 T))].
Defined.

Lemma keys_in_order_of_first_sale_witness :
  ingested two_year_lines two_year_state
  /\ keys (daily_volume two_year_state)
     = first_seen [] (map sale_date (transactions two_year_state))
  /\ keys (daily_value two_year_state)
     = first_seen [] (map sale_date (transactions two_year_state)).
Proof.
  split; [exact two_year_ingested|].
  pose proof (keys_in_order_of_first_sale two_year_ingested) as T.
  split; [exact (proj1 T) | exact (proj1 (proj2 T))].
Defined.

Lemma volume_maxima_first_of_the_greatest_witness :
  ingested two_year_lines two_year_state
  /\ fst (print_metrics two_year_state) = OK two_year_report
  /\ exists before after,
      items (daily_volume two_year_state)
      = (before ++ highest_volume_day two_year_report :: after)%list
      /\ (forall e, In e before -> snd e < snd (highest_volume_day two_year_report))
      /\ (forall e, In e after -> snd e <= snd (highest_volume_day two_year_report)).
Proof.
  split; [exact two_year_ingested|]. split; [exact two_year_printed|].
  exact (proj1 (volume_maxima_first_of_the_greatest
                  two_year_ingested two_year_printed)).
Defined.

Lemma highest_value_day_is_max_witness :
  ingested two_year_lines two_year_state
  /\ fst (print_metrics two_year_state) = OK two_year_report
  /\ dict_lookup (daily_value two_year_state)
                 (fst (highest_value_day two_year_report))
     = Some (snd (highest_value_day two_year_report))
  /\ forall d v, dict_lookup (daily_value two_year_state) d = Some v ->
                 float_gt v (snd (highest_value_day two_year_report)) = false.
Proof.
  split; [exact two_year_ingested|]. split; [exact two_year_printed|].
  exact (highest_value_day_is_max two_year_ingested two_year_printed).
Defined.

(** ** A run that stops at a rejected line *)

Definition broken_lines : list string :=
  ["4,2025-01-01T16:58:53,[726107:5],10.0"; "7,2025-01-01"].

Lemma get_transactions_raises_witness :
  get_transactions broken_lines MonieshopAnalyser_init
  = (Raise IndexError, snd (get_transactions broken_lines MonieshopAnalyser_init))
  /\ transactions (snd (get_transactions broken_lines MonieshopAnalyser_init))
     = transactions MonieshopAnalyser_init.
Proof.
  assert (R : get_transactions broken_lines MonieshopAnalyser_init
              = (Raise IndexError,
                 snd (get_transactions broken_lines MonieshopAnalyser_init)))
    by (vm_compute; reflexivity).
  split; [exact R|]. exact (proj1 (@get_transactions_raises _ _ _ _ _ R)).
Defined.

Lemma get_transactions_again_counts_twice_witness :
  ingested scenario_lines scenario_state
  /\ exists self',
      get_transactions scenario_lines scenario_state = (OK tt, self')
      /\ transactions self' = transactions scenario_state
      /\ (forall d v, dict_lookup (daily_volume scenario_state) d = Some v ->
                      dict_lookup (daily_volume self') d = Some (2 * v))
      /\ (forall p v, dict_lookup (product_volume scenario_state) p = Some v ->
                      dict_lookup (product_volume self') p = Some (2 * v))
      /\ (forall h l, dict_lookup (hourly_volumes scenario_state) h = Some l ->
                      dict_lookup (hourly_volumes self') h = Some (l ++ l)%list).
Proof.
  split; [exact scenario_ingested|].
  exact (get_transactions_again_counts_twice scenario_ingested).
Defined.

(** ** A rendered line *)

Lemma format_products_render_witness :
  products sale_1 <> []
  /\ forallb (fun p => free_of [":"; "|"]%char (product_id p)
                       && free_of [":"; "|"]%char (quantity p))
             (products sale_1) = true
  /\ format_products (render_products (products sale_1)) = OK (products sale_1).
Proof.
  assert (N : products sale_1 <> []) by discriminate.
  assert (F : forallb (fun p => free_of [":"; "|"]%char (product_id p)
                                && free_of [":"; "|"]%char (quantity p))
                      (products sale_1) = true) by reflexivity.
  split; [exact N|]. split; [exact F|].
  exact (format_products_render N F).
Defined.

Lemma parse_render_witness :
  render_line "4" "2025-01-01T16:58:53" (products sale_1) "2114.235"
  = "4,2025-01-01T16:58:53,[726107:5|553776:5],2114.235"
  /\ parse (render_line "4" "2025-01-01T16:58:53" (products sale_1) "2114.235")
     = OK (Build_Sale "4" t_16_58_53 (products sale_1) "2114.235").
Proof.
  split; [reflexivity|].
  apply parse_render; try reflexivity. discriminate.
Defined.

Lemma parse_ok_fields_witness :
  parse "4,2025-01-01T16:58:53,[726107:5|553776:5],2114.235" = OK sale_1
  /\ exists r0 r1 r2 r3 rest,
      split "," (strip "4,2025-01-01T16:58:53,[726107:5|553776:5],2114.235")
      = r0 :: r1 :: r2 :: r3 :: rest
      /\ staff sale_1 = r0
      /\ fromisoformat r1 = Some (timestamp sale_1)
      /\ amount sale_1 = r3
      /\ map (fun p => [product_id p; quantity p]) (products sale_1)
         = map (split ":") (split "|" (slice_1_m1 r2))
      /\ products sale_1 <> [].
Proof.
  assert (P : parse "4,2025-01-01T16:58:53,[726107:5|553776:5],2114.235"
              = OK sale_1) by reflexivity.
  split; [exact P|]. exact (parse_ok_fields _ P).
Defined.

Lemma month_label_is_month_name_witness :
  valid_datetime t_16_58_53 = true
  /\ month_label (strftime_Ym t_16_58_53) = OK "January".
Proof.
  assert (V : valid_datetime t_16_58_53 = true) by reflexivity.
  split; [exact V|]. exact (proj1 (month_label_is_month_name _ V)).
Defined.

(** ** One sale *)


End Scenario.
